(** * Task Scheduler utilities: a shallow embedding of
      [windows_system_utilities/schedule_task.py]

    The module drives the Windows "Schedule.Service" automation object.
    The embedding has three layers:

    - the Python string operations the module uses ([strip], [split]);
    - an in-memory model of the scheduling service (a set of folder paths and
      a map of registered tasks) that records every call it receives;
    - the functions of the module, written in a small state-and-exception
      monad over that model, in the order of the source. *)

From Stdlib Require Import ZArith Lia Ascii String.
From stdpp Require Import gmap strings list fin_maps.

Local Open Scope string_scope.
Local Open Scope list_scope.
Local Open Scope Z_scope.

(** ** Python string operations *)

Module PyStr.

Definition backslash : ascii := "\"%char.

(** [s.lstrip(c)] for a one-character [c]. *)
Fixpoint lstrip (c : ascii) (s : string) : string :=
  match s with
  | EmptyString => EmptyString
  | String a s' => if decide (a = c) then lstrip c s' else s
  end.

(** [s.rstrip(c)] for a one-character [c]. *)
Fixpoint rstrip (c : ascii) (s : string) : string :=
  match s with
  | EmptyString => EmptyString
  | String a s' =>
      match rstrip c s' with
      | EmptyString => if decide (a = c) then EmptyString else String a EmptyString
      | r => String a r
      end
  end.

(** [s.strip(c)]: both ends. *)
Definition strip (c : ascii) (s : string) : string := rstrip c (lstrip c s).

(** [s.split(c)] for a one-character separator: never the empty list, and
    adjacent separators give empty fields. *)
Fixpoint split (c : ascii) (s : string) : list string :=
  match s with
  | EmptyString => [EmptyString]
  | String a s' =>
      if decide (a = c) then EmptyString :: split c s'
      else match split c s' with
           | [] => [String a EmptyString]
           | field :: fields => String a field :: fields
           end
  end.

(** Truthiness of a [str]: the empty string is falsy. *)
Definition truthy (s : string) : bool := negb (bool_decide (s = EmptyString)).

(** [x or d] where [x : str | None]. *)
Definition or_else (x : option string) (d : string) : string :=
  match x with
  | Some s => if truthy s then s else d
  | None => d
  end.

(** [[p for p in l if p]] *)
Definition nonempty_fields (l : list string) : list string :=
  filter (λ p, p ≠ EmptyString) l.

End PyStr.

(** ** Data of the module *)

(** Task Scheduler constants (source lines 24-31). *)
Definition TASK_CREATE_OR_UPDATE : Z := 6.
Definition TASK_LOGON_INTERACTIVE_TOKEN : Z := 3.
Definition TASK_LOGON_PASSWORD : Z := 1.
Definition TASK_LOGON_SERVICE_ACCOUNT : Z := 5.
Definition TASK_TRIGGER_TIME : Z := 1.
Definition TASK_TRIGGER_DAILY : Z := 2.
Definition TASK_TRIGGER_LOGON : Z := 9.
Definition TASK_ACTION_EXEC : Z := 0.

(** A [pathlib.Path] value, through the two observations the module makes of
    it: [str(p)] and [p.name]. *)
Record PyPath := mkPyPath { path_str : string; path_name : string }.

(** A naive [datetime], as a count of microseconds. *)
Definition datetime := Z.

(** [timedelta(minutes=m)] *)
Definition timedelta_minutes (m : Z) : Z := m * 60 * 1000000.

(** [d.strftime("%Y-%m-%dT%H:%M:%S")]: the text names a whole second and drops
    the microseconds; it is represented by the number of that second. *)
Definition strftime_seconds (d : datetime) : Z := d `div` 1000000.

(** The dataclass [TaskParams] (source lines 34-47). *)
Record TaskParams := mkTaskParams {
  name : string;
  exe : PyPath;
  arguments : string;
  start_when_available : bool;
  run_with_highest : bool;
  wake_to_run : bool;
  working_dir : option PyPath;
  folder : string;
  logon_type : Z;
  username : option string;
  password : option string
}.

(** The default of the [folder] field. *)
Definition TaskParams_folder_default : string :=
  "D:\LifeLongLearning\windows-automation-python".

(** [TaskParams(name=..., exe=...)]: every other field left to its default. *)
Definition TaskParams_defaults (nm : string) (ex : PyPath) : TaskParams :=
  {| name := nm;
     exe := ex;
     arguments := EmptyString;
     start_when_available := true;
     run_with_highest := true;
     wake_to_run := false;
     working_dir := None;
     folder := TaskParams_folder_default;
     logon_type := TASK_LOGON_INTERACTIVE_TOKEN;
     username := None;
     password := None |}.

(** ** The task definition object returned by [svc.NewTask(0)] *)

Record RegistrationInfo := mkRegistrationInfo {
  Description : string;
  Author : string
}.

Record Settings := mkSettings {
  Enabled : bool;
  StartWhenAvailable : bool;
  Hidden : bool;
  RunOnlyIfIdle : bool;
  WakeToRun : bool;
  MultipleInstances : Z
}.

Record Action := mkAction {
  ActionType : Z;
  ActionPath : string;
  Arguments : string;
  WorkingDirectory : option string
}.

Record Trigger := mkTrigger {
  TriggerType : Z;
  DaysInterval : option Z;
  StartBoundary : option Z
}.

Record TaskDefinition := mkTaskDefinition {
  RegistrationInfo_ : RegistrationInfo;
  Settings_ : Settings;
  RunLevel : Z;
  Actions : list Action;
  Triggers : list Trigger
}.

(** ** The scheduling service, in memory

    A folder is identified by its full path, the list of its segments below
    the root; the root is [[]] and always exists.  A registered task is keyed
    by the folder that holds it and its name.  Every method of the service,
    of a folder or of a task that the module calls appends a [Call] to the
    record of calls, whether it succeeds or raises. *)

Definition fpath := list string.

Record RegisteredTask := mkRegisteredTask {
  rt_definition : TaskDefinition;
  rt_user_id : string;
  rt_password : string;
  rt_logon_type : Z;
  rt_state : Z
}.

Inductive Call :=
| CConnect
| CSvcGetFolder (path : string)
| CNewTask (flags : Z)
| CGetFolder (parent : fpath) (path : string)
| CCreateFolder (parent : fpath) (path : string)
| CRegisterTaskDefinition (f : fpath) (nm : string) (td : TaskDefinition)
    (flags : Z) (user_id pwd : string) (logon : Z)
| CGetTask (f : fpath) (nm : string)
| CRun (f : fpath) (nm : string) (params : string)
| CDeleteTask (f : fpath) (nm : string) (flags : Z)
| CGetTasks (f : fpath) (flags : Z).

(** What [logging.info] is given, call by call. *)
Inductive LogRecord :=
| LogRegistered (nm fld : string)
| LogTriggered (nm : string)
| LogDeleted (nm : string)
| LogTask (nm : string) (state : Z) (next_run : option Z) (path : string).

Record World := mkWorld {
  online : bool;
  clock : datetime;
  folders : gset (list string);
  tasks : gmap (list string * string) RegisteredTask;
  calls : list Call;
  logged : list LogRecord
}.

(** Failures the service reports (as [pywintypes.com_error]). *)
Inductive fault := Unreachable | FolderNotFound | AlreadyExists | TaskNotFound.

Inductive exn :=
| ValueError (msg : string)
| KeyError (key : string)
| com_error (hr : fault)
| SystemExit (code : Z).

(** ** State and exceptions

    A computation takes the world and gives back a value or the exception
    raised, with the world as it has become: what was done before an
    exception stays done. *)

Definition M (A : Type) : Type := World → (exn + A) * World.

Definition ret {A} (a : A) : M A := λ w, (inr a, w).

Definition raise {A} (e : exn) : M A := λ w, (inl e, w).

Definition bind {A B} (m : M A) (k : A → M B) : M B :=
  λ w, match m w with
       | (inr a, w') => k a w'
       | (inl e, w') => (inl e, w')
       end.

(** [try: m  except Exception: h].  [SystemExit] is not an [Exception]. *)
Definition try_except {A} (m : M A) (h : M A) : M A :=
  λ w, match m w with
       | (inr a, w') => (inr a, w')
       | (inl (SystemExit c), w') => (inl (SystemExit c), w')
       | (inl _, w') => h w'
       end.

Notation "'let!' x ':=' m 'in' k" := (bind m (λ x, k))
  (at level 10, x name, m at level 100, k at level 200,
   format "'[v' 'let!'  x  ':='  m  'in' '/' k ']'").
Notation "m '>>' k" := (bind m (λ _, k))
  (at level 90, right associativity).

(** Updates of one field of the world. *)
Definition add_call (c : Call) (w : World) : World :=
  mkWorld (online w) (clock w) (folders w) (tasks w) (calls w ++ [c]) (logged w).

Definition add_log (r : LogRecord) (w : World) : World :=
  mkWorld (online w) (clock w) (folders w) (tasks w) (calls w) (logged w ++ [r]).

Definition with_folders (fs : gset (list string)) (w : World) : World :=
  mkWorld (online w) (clock w) fs (tasks w) (calls w) (logged w).

Definition with_tasks (ts : gmap (list string * string) RegisteredTask)
    (w : World) : World :=
  mkWorld (online w) (clock w) (folders w) ts (calls w) (logged w).

Definition with_clock (t : datetime) (w : World) : World :=
  mkWorld (online w) t (folders w) (tasks w) (calls w) (logged w).

Definition record_call (c : Call) : M unit := λ w, (inr tt, add_call c w).

Definition logging_info (r : LogRecord) : M unit := λ w, (inr tt, add_log r w).

Definition get_world : M World := λ w, (inr w, w).

Definition set_folders (fs : gset (list string)) : M unit :=
  λ w, (inr tt, with_folders fs w).

Definition set_tasks (ts : gmap (list string * string) RegisteredTask) : M unit :=
  λ w, (inr tt, with_tasks ts w).

(** [datetime.now()] *)
Definition datetime_now : M datetime := λ w, (inr (clock w), w).

(** ** Methods of the service *)

Module Svc.

(** The segments a path text names. *)
Definition segments (s : string) : fpath :=
  PyStr.nonempty_fields (PyStr.split PyStr.backslash s).

(** Modelled from the spec: the service is not part of the source.  Folder
    resolution (4.2) descends into a segment that exists and creates an
    absent one before descending, so a path given to the folder [cur]
    denotes a folder below [cur], with or without a backslash in front. *)
Definition locate (cur : fpath) (s : string) : fpath := cur ++ segments s.

Definition has_folder (w : World) (f : fpath) : bool :=
  bool_decide (f = [] ∨ f ∈ folders w).

(** [win32.Dispatch("Schedule.Service")] followed by [svc.Connect()] *)
Definition Connect : M unit :=
  record_call CConnect >>
  let! w := get_world in
  if online w then ret tt else raise (com_error Unreachable).

(** [svc.GetFolder(path)]: always read from the root. *)
Definition GetFolder (path : string) : M fpath :=
  record_call (CSvcGetFolder path) >>
  let! w := get_world in
  if has_folder w (segments path) then ret (segments path)
  else raise (com_error FolderNotFound).

(** [svc.NewTask(flags)]: a blank definition. *)
Definition blank : TaskDefinition :=
  {| RegistrationInfo_ := mkRegistrationInfo EmptyString EmptyString;
     Settings_ := mkSettings true false false false false 2;
     RunLevel := 0;
     Actions := [];
     Triggers := [] |}.

Definition NewTask (flags : Z) : M TaskDefinition :=
  record_call (CNewTask flags) >> ret blank.

End Svc.

Module Folder.

(** [parent.GetFolder(path)] *)
Definition GetFolder (parent : fpath) (path : string) : M fpath :=
  record_call (CGetFolder parent path) >>
  let! w := get_world in
  if Svc.has_folder w (Svc.locate parent path) then ret (Svc.locate parent path)
  else raise (com_error FolderNotFound).

(** [parent.CreateFolder(path)]: refuses a folder that exists. *)
Definition CreateFolder (parent : fpath) (path : string) : M fpath :=
  record_call (CCreateFolder parent path) >>
  let! w := get_world in
  if Svc.has_folder w (Svc.locate parent path) then raise (com_error AlreadyExists)
  else set_folders ({[ Svc.locate parent path ]} ∪ folders w) >>
       ret (Svc.locate parent path).

(** [f.RegisterTaskDefinition(name, td, flags, user, pwd, logon)].  In
    [flags], bit 1 allows creation and bit 2 allows update; the record of
    the task is replaced as a whole and the task is left Ready (3). *)
Definition RegisterTaskDefinition (f : fpath) (nm : string)
    (td : TaskDefinition) (flags : Z) (user_id pwd : string) (logon : Z) : M unit :=
  record_call (CRegisterTaskDefinition f nm td flags user_id pwd logon) >>
  let! w := get_world in
  match tasks w !! (f, nm) with
  | Some _ =>
      if Z.testbit flags 2
      then set_tasks (<[(f, nm) := mkRegisteredTask td user_id pwd logon 3]> (tasks w))
      else raise (com_error AlreadyExists)
  | None =>
      if Z.testbit flags 1
      then set_tasks (<[(f, nm) := mkRegisteredTask td user_id pwd logon 3]> (tasks w))
      else raise (com_error TaskNotFound)
  end.

(** [f.GetTask(name)]: a handle on the task, the pair of its folder and name. *)
Definition GetTask (f : fpath) (nm : string) : M (fpath * string) :=
  record_call (CGetTask f nm) >>
  let! w := get_world in
  match tasks w !! (f, nm) with
  | Some _ => ret (f, nm)
  | None => raise (com_error TaskNotFound)
  end.

(** [f.DeleteTask(name, flags)] *)
Definition DeleteTask (f : fpath) (nm : string) (flags : Z) : M unit :=
  record_call (CDeleteTask f nm flags) >>
  let! w := get_world in
  match tasks w !! (f, nm) with
  | Some _ => set_tasks (delete (f, nm) (tasks w))
  | None => raise (com_error TaskNotFound)
  end.

End Folder.

(** What a task object shows ([t.Name], [t.State], [t.NextRunTime], [t.Path]). *)
Record TaskView := mkTaskView {
  Name : string;
  State : Z;
  NextRunTime : option Z;
  Path : string
}.

Module Task.

(** The full path of a task: a backslash before every segment. *)
Definition path_text (f : fpath) (nm : string) : string :=
  foldr (λ seg acc, String PyStr.backslash (seg +:+ acc)) EmptyString (f ++ [nm]).

(** The next run the service shows, taken here to be the boundary of the
    first trigger; the service itself computes it. *)
Definition next_run (td : TaskDefinition) : option Z :=
  match Triggers td with
  | t :: _ => StartBoundary t
  | [] => None
  end.

Definition view (f : fpath) (nm : string) (rt : RegisteredTask) : TaskView :=
  {| Name := nm;
     State := rt_state rt;
     NextRunTime := next_run (rt_definition rt);
     Path := path_text f nm |}.

(** The tasks a folder holds, as the service enumerates them. *)
Definition tasks_in (w : World) (f : fpath) : list TaskView :=
  (λ kv, view kv.1.1 kv.1.2 kv.2)
    <$> filter (λ kv, kv.1.1 = f) (map_to_list (tasks w)).

(** [f.GetTasks(flags)] *)
Definition GetTasks (f : fpath) (flags : Z) : M (list TaskView) :=
  record_call (CGetTasks f flags) >>
  let! w := get_world in
  ret (tasks_in w f).

(** [task.Run(params)]: the request is recorded; the service owns what
    follows. *)
Definition Run (t : fpath * string) (params : string) : M unit :=
  record_call (CRun t.1 t.2 params).

End Task.

(** [for x in l: body(x)] *)
Fixpoint for_each {A} (l : list A) (body : A → M unit) : M unit :=
  match l with
  | [] => ret tt
  | x :: rest => body x >> for_each rest body
  end.

(** ** The functions of the module *)

(** [_connect] (source lines 50-53) *)
Definition _connect : M unit := Svc.Connect.

(** The [for part in ...] loop of [_get_folder] (source lines 62-66). *)
Fixpoint _get_folder_loop (parent : fpath) (parts : list string) : M fpath :=
  match parts with
  | [] => ret parent
  | part :: rest =>
      let! parent' :=
        try_except (Folder.GetFolder parent (String PyStr.backslash part))
                   (Folder.CreateFolder parent part) in
      _get_folder_loop parent' rest
  end.

(** [[p for p in folder_path.strip("\\").split("\\") if p]] *)
Definition path_parts (folder_path : string) : list string :=
  PyStr.nonempty_fields
    (PyStr.split PyStr.backslash (PyStr.strip PyStr.backslash folder_path)).

(** [_get_folder] (source lines 56-67) *)
Definition _get_folder (folder_path : string) : M fpath :=
  try_except (Svc.GetFolder folder_path)
    (let! parent := Svc.GetFolder (String PyStr.backslash EmptyString) in
     _get_folder_loop parent (path_parts folder_path)).

(** Assignments to the fields of a task definition. *)
Definition set_RegistrationInfo (r : RegistrationInfo) (td : TaskDefinition) :=
  mkTaskDefinition r (Settings_ td) (RunLevel td) (Actions td) (Triggers td).
Definition set_Settings (s : Settings) (td : TaskDefinition) :=
  mkTaskDefinition (RegistrationInfo_ td) s (RunLevel td) (Actions td) (Triggers td).
Definition set_RunLevel (l : Z) (td : TaskDefinition) :=
  mkTaskDefinition (RegistrationInfo_ td) (Settings_ td) l (Actions td) (Triggers td).

(** [td.Actions.Create(...)] with the fields then given to the new action. *)
Definition Actions_Create (a : Action) (td : TaskDefinition) :=
  mkTaskDefinition (RegistrationInfo_ td) (Settings_ td) (RunLevel td)
                   (Actions td ++ [a]) (Triggers td).

(** [td.Triggers.Create(...)] with the fields then given to the new trigger. *)
Definition Triggers_Create (t : Trigger) (td : TaskDefinition) :=
  mkTaskDefinition (RegistrationInfo_ td) (Settings_ td) (RunLevel td)
                   (Actions td) (Triggers td ++ [t]).

(** [_base_task_def] (source lines 70-97) *)
Definition _base_task_def (params : TaskParams) : M TaskDefinition :=
  let! td := Svc.NewTask 0 in
  let td := set_RegistrationInfo
              {| Description := "Created by Python for " +:+ path_name (exe params);
                 Author := PyStr.or_else (username params) "CurrentUser" |} td in
  let td := set_Settings
              {| Enabled := true;
                 StartWhenAvailable := start_when_available params;
                 Hidden := false;
                 RunOnlyIfIdle := false;
                 WakeToRun := wake_to_run params;
                 MultipleInstances := 0 |} td in
  let td := set_RunLevel (if run_with_highest params then 1 else 0) td in
  let td := Actions_Create
              {| ActionType := TASK_ACTION_EXEC;
                 ActionPath := path_str (exe params);
                 Arguments := PyStr.or_else (Some (arguments params)) EmptyString;
                 WorkingDirectory :=
                   match working_dir params with
                   | Some d => Some (path_str d)
                   | None => None
                   end |} td in
  ret td.

(** [add_daily_trigger] (source lines 100-103) *)
Definition add_daily_trigger (td : TaskDefinition) (start_time : datetime) :=
  Triggers_Create {| TriggerType := TASK_TRIGGER_DAILY;
                     DaysInterval := Some 1;
                     StartBoundary := Some (strftime_seconds start_time) |} td.

(** [add_once_trigger] (source lines 106-108) *)
Definition add_once_trigger (td : TaskDefinition) (run_at : datetime) :=
  Triggers_Create {| TriggerType := TASK_TRIGGER_TIME;
                     DaysInterval := None;
                     StartBoundary := Some (strftime_seconds run_at) |} td.

(** [add_logon_trigger] (source lines 111-112) *)
Definition add_logon_trigger (td : TaskDefinition) :=
  Triggers_Create {| TriggerType := TASK_TRIGGER_LOGON;
                     DaysInterval := None;
                     StartBoundary := None |} td.

(** [when or (datetime.now() + timedelta(minutes=2))]: a [datetime] is always
    truthy, so the clock is read exactly when [when] is [None]. *)
Definition when_or_soon (when : option datetime) : M datetime :=
  match when with
  | Some d => ret d
  | None => let! now := datetime_now in ret (now + timedelta_minutes 2)
  end.

Definition trigger_error : string := "trigger must be one of: daily | once | logon".

(** The [if]/[elif] chain on [trigger] (source lines 121-128). *)
Definition attach_trigger (td : TaskDefinition) (trigger : string)
    (when : option datetime) : M TaskDefinition :=
  if decide (trigger = "daily") then
    let! start := when_or_soon when in ret (add_daily_trigger td start)
  else if decide (trigger = "once") then
    let! start := when_or_soon when in ret (add_once_trigger td start)
  else if decide (trigger = "logon") then
    ret (add_logon_trigger td)
  else raise (ValueError trigger_error).

(** [register_task] (source lines 115-139) *)
Definition register_task (params : TaskParams) (trigger : string)
    (when : option datetime) : M unit :=
  let! svc := _connect in
  let! fld := _get_folder (folder params) in
  let! td := _base_task_def params in
  let! td := attach_trigger td trigger when in
  let user_id := PyStr.or_else (username params) EmptyString in
  let pwd := PyStr.or_else (password params) EmptyString in
  Folder.RegisterTaskDefinition fld (name params) td TASK_CREATE_OR_UPDATE
                                user_id pwd (logon_type params) >>
  logging_info (LogRegistered (name params) (folder params)).

(** [run_task] (source lines 142-147) *)
Definition run_task (nm : string) (fld : string) : M unit :=
  let! svc := _connect in
  let! f := _get_folder fld in
  let! task := Folder.GetTask f nm in
  Task.Run task EmptyString >>
  logging_info (LogTriggered nm).

(** [delete_task] (source lines 150-154) *)
Definition delete_task (nm : string) (fld : string) : M unit :=
  let! svc := _connect in
  let! f := _get_folder fld in
  Folder.DeleteTask f nm 0 >>
  logging_info (LogDeleted nm).

(** [list_tasks] (source lines 157-163) *)
Definition list_tasks (fld : string) : M unit :=
  let! svc := _connect in
  let! f := _get_folder fld in
  let! ts := Task.GetTasks f 0 in
  for_each ts (λ t, logging_info (LogTask (Name t) (State t) (NextRunTime t) (Path t))).

(** ** The command line (source lines 168-242) *)

(** The options of [register] as they stand on the command line: [None] for
    an option that is not given. *)
Record RegisterOptions := mkRegisterOptions {
  opt_name : option string;
  opt_exe : option string;
  opt_args : option string;
  opt_folder : option string;
  opt_trigger : option string;
  opt_at : option string;
  opt_workdir : option string;
  opt_highest : bool;
  opt_wake : bool;
  opt_logon : option string;
  opt_username : option string;
  opt_password : option string
}.

Inductive CommandLine :=
| cl_register (o : RegisterOptions)
| cl_run (nm fld : option string)
| cl_delete (nm fld : option string)
| cl_list (fld : option string)
| cl_missing.

(** The namespace [parse_args] returns, one shape per sub-command. *)
Inductive Namespace :=
| ns_register (nm ex args fld trigger : string) (at_ workdir : option string)
    (highest wake : bool) (logon : string) (user pass : option string)
| ns_run (nm fld : string)
| ns_delete (nm fld : string)
| ns_list (fld : string).

(** argparse leaves through [SystemExit(2)] on a usage error. *)
Definition required (o : option string) : M string :=
  match o with
  | Some s => ret s
  | None => raise (SystemExit 2)
  end.

Definition choices (allowed : list string) (o : option string) : M unit :=
  match o with
  | Some s => if bool_decide (s ∈ allowed) then ret tt else raise (SystemExit 2)
  | None => ret tt
  end.

Definition root_text : string := String PyStr.backslash EmptyString.

Definition parse_args (cl : CommandLine) : M Namespace :=
  match cl with
  | cl_register o =>
      choices ["daily"; "once"; "logon"] (opt_trigger o) >>
      choices ["interactive"; "password"; "service"] (opt_logon o) >>
      let! nm := required (opt_name o) in
      let! ex := required (opt_exe o) in
      let! trigger := required (opt_trigger o) in
      ret (ns_register nm ex (default EmptyString (opt_args o))
                       (default root_text (opt_folder o)) trigger
                       (opt_at o) (opt_workdir o) (opt_highest o) (opt_wake o)
                       (default "interactive" (opt_logon o))
                       (opt_username o) (opt_password o))
  | cl_run nm fld =>
      let! nm := required nm in ret (ns_run nm (default root_text fld))
  | cl_delete nm fld =>
      let! nm := required nm in ret (ns_delete nm (default root_text fld))
  | cl_list fld => ret (ns_list (default root_text fld))
  | cl_missing => raise (SystemExit 2)
  end.

Definition logon_map : list (string * Z) :=
  [("interactive", TASK_LOGON_INTERACTIVE_TOKEN);
   ("password", TASK_LOGON_PASSWORD);
   ("service", TASK_LOGON_SERVICE_ACCOUNT)].

Fixpoint assoc (k : string) (l : list (string * Z)) : option Z :=
  match l with
  | [] => None
  | (k', v) :: rest => if decide (k = k') then Some v else assoc k rest
  end.

Definition time_error : string := "time data does not match format".

Section CommandLine.

(** The constructor [pathlib.Path] and [datetime.strptime] with the format
    ["%Y-%m-%dT%H:%M:%S"] ([None] where it raises [ValueError]) belong to
    the Python library and are taken as given. *)
Variable Path_of : string → PyPath.
Variable strptime : string → option datetime.

(** [x if s else None] for [s : str | None] *)
Definition if_truthy {A} (s : option string) (f : string → A) : option A :=
  match s with
  | Some t => if PyStr.truthy t then Some (f t) else None
  | None => None
  end.

Definition main (cl : CommandLine) : M Z :=
  let! args := parse_args cl in
  match args with
  | ns_register nm ex args_ fld trigger at_ workdir highest wake logon user pass =>
      let! dt :=
        match if_truthy at_ id with
        | Some t =>
            match strptime t with
            | Some d => ret (Some d)
            | None => raise (ValueError time_error)
            end
        | None => ret None
        end in
      let! logon_type :=
        match assoc logon logon_map with
        | Some v => ret v
        | None => raise (KeyError logon)
        end in
      let workdir := if_truthy workdir Path_of in
      let params :=
        {| name := nm;
           exe := Path_of ex;
           arguments := args_;
           start_when_available := true;
           run_with_highest := highest;
           wake_to_run := wake;
           working_dir := workdir;
           folder := fld;
           logon_type := logon_type;
           username := user;
           password := pass |} in
      register_task params trigger dt >> ret 0
  | ns_run nm fld => run_task nm fld >> ret 0
  | ns_delete nm fld => delete_task nm fld >> ret 0
  | ns_list fld => list_tasks fld >> ret 0
  end.

End CommandLine.

(** ** Vocabulary of the statements *)

(** Connection and folder calls, as opposed to calls on tasks. *)
Definition lookup_call (c : Call) : bool :=
  match c with
  | CConnect | CSvcGetFolder _ | CGetFolder _ _ | CCreateFolder _ _ => true
  | _ => false
  end.

Definition is_register (c : Call) : bool :=
  match c with
  | CRegisterTaskDefinition _ _ _ _ _ _ _ => true
  | _ => false
  end.

Definition is_run (c : Call) : bool :=
  match c with
  | CRun _ _ _ => true
  | _ => false
  end.

(** [frame w w']: from [w] to [w'] nothing changed but the set of folders,
    which may have grown, and the record of calls, to which only connection
    and folder calls were added. *)
Definition frame (w w' : World) : Prop :=
  online w' = online w ∧ clock w' = clock w ∧ tasks w' = tasks w ∧
  logged w' = logged w ∧ folders w ⊆ folders w' ∧
  ∃ cs, calls w' = calls w ++ cs ∧ forallb lookup_call cs = true.

Definition framed {A} (m : M A) : Prop := ∀ w, frame w (m w).2.

(** Opening a session and resolving a folder: the common beginning of the
    four operations. *)
Definition session (fld : string) : M fpath :=
  let! svc := _connect in _get_folder fld.

(** What [register_task] does once the folder is resolved. *)
Definition submit (params : TaskParams) (trigger : string)
    (when : option datetime) (fld : fpath) : M unit :=
  let! td := _base_task_def params in
  let! td := attach_trigger td trigger when in
  let user_id := PyStr.or_else (username params) EmptyString in
  let pwd := PyStr.or_else (password params) EmptyString in
  Folder.RegisterTaskDefinition fld (name params) td TASK_CREATE_OR_UPDATE
                                user_id pwd (logon_type params) >>
  logging_info (LogRegistered (name params) (folder params)).

(** The definition [_base_task_def] builds, as a function of the parameters. *)
Definition base_def (params : TaskParams) : TaskDefinition :=
  {| RegistrationInfo_ :=
       {| Description := "Created by Python for " +:+ path_name (exe params);
          Author := PyStr.or_else (username params) "CurrentUser" |};
     Settings_ :=
       {| Enabled := true;
          StartWhenAvailable := start_when_available params;
          Hidden := false;
          RunOnlyIfIdle := false;
          WakeToRun := wake_to_run params;
          MultipleInstances := 0 |};
     RunLevel := if run_with_highest params then 1 else 0;
     Actions :=
       [ {| ActionType := TASK_ACTION_EXEC;
            ActionPath := path_str (exe params);
            Arguments := arguments params;
            WorkingDirectory := path_str <$> working_dir params |} ];
     Triggers := [] |}.

(** ** Sample data *)

Module Sample.

(** A reachable service with no folder but the root and no task. *)
Definition fresh : World := mkWorld true 0 ∅ ∅ [] [].

Definition holding (fs : list fpath) : World :=
  mkWorld true 0 (list_to_set fs) ∅ [] [].

Definition python : PyPath := mkPyPath "C:\Python\python.exe" "python.exe".

(** [Path("")]: its text is a dot and its name is empty. *)
Definition empty_path : PyPath := mkPyPath "." EmptyString.

Definition job (fld : string) : TaskParams :=
  {| name := "Job"; exe := python; arguments := EmptyString;
     start_when_available := true; run_with_highest := true;
     wake_to_run := false; working_dir := None; folder := fld;
     logon_type := TASK_LOGON_INTERACTIVE_TOKEN;
     username := None; password := None |}.

(** A stand-in for [pathlib.Path] that keeps the text as it is. *)
Definition Path_of (s : string) : PyPath := mkPyPath s s.

(** A stand-in for [strptime] that knows a single timestamp. *)
Definition strptime (s : string) : option datetime :=
  if decide (s = "2025-01-01T09:00:00") then Some 1735722000000000 else None.

Definition register_options (trigger : string) (at_ : option string) : RegisterOptions :=
  {| opt_name := Some "Job"; opt_exe := Some "C:\Python\python.exe";
     opt_args := None; opt_folder := None; opt_trigger := Some trigger;
     opt_at := at_; opt_workdir := None; opt_highest := false;
     opt_wake := false; opt_logon := None; opt_username := None;
     opt_password := None |}.

End Sample.

(** The definition with its trigger attached, as a function of the trigger
    kind, of [when] and of the clock; [None] where the kind is refused. *)
Definition attached (td : TaskDefinition) (trigger : string)
    (when : option datetime) (now : datetime) : option TaskDefinition :=
  if decide (trigger = "daily") then
    Some (add_daily_trigger td (default (now + timedelta_minutes 2) when))
  else if decide (trigger = "once") then
    Some (add_once_trigger td (default (now + timedelta_minutes 2) when))
  else if decide (trigger = "logon") then Some (add_logon_trigger td)
  else None.

(** The record the service keeps for [params] once [td] is registered. *)
Definition record_of (params : TaskParams) (td : TaskDefinition) : RegisteredTask :=
  mkRegisteredTask td (PyStr.or_else (username params) EmptyString)
                   (PyStr.or_else (password params) EmptyString)
                   (logon_type params) 3.

(** The registration call [register_task] issues for [params] in [f]. *)
Definition register_call (params : TaskParams) (td : TaskDefinition) (f : fpath) : Call :=
  CRegisterTaskDefinition f (name params) td TASK_CREATE_OR_UPDATE
    (PyStr.or_else (username params) EmptyString)
    (PyStr.or_else (password params) EmptyString) (logon_type params).

(** The world after [register_task] has submitted [td] to the folder [f]. *)
Definition registered (params : TaskParams) (td : TaskDefinition) (f : fpath)
    (w : World) : World :=
  add_log (LogRegistered (name params) (folder params))
    (with_tasks (<[(f, name params) := record_of params td]> (tasks w))
       (add_call (register_call params td f) (add_call (CNewTask 0) w))).

(** The line [list_tasks] logs for a task. *)
Definition task_line (t : TaskView) : LogRecord :=
  LogTask (Name t) (State t) (NextRunTime t) (Path t).

(** The world once several lines are logged. *)
Definition add_logs (rs : list LogRecord) (w : World) : World :=
  mkWorld (online w) (clock w) (folders w) (tasks w) (calls w) (logged w ++ rs).

(** ** Folder resolution on the set of folders alone *)

(** [occurs c s]: the character [c] occurs in [s]. *)
Fixpoint occurs (c : ascii) (s : string) : bool :=
  match s with
  | EmptyString => false
  | String a s' => bool_decide (a = c) || occurs c s'
  end.

(** A path segment: not empty, and free of backslashes. *)
Definition segment (p : string) : Prop :=
  p ≠ EmptyString ∧ occurs PyStr.backslash p = false.

Definition exists_in (fs : gset (list string)) (f : fpath) : bool :=
  bool_decide (f = [] ∨ f ∈ fs).

(** The loop of [_get_folder] on the set of folders: the folders as the walk
    from [parent] down [parts] leaves them.  The handle it ends on is
    [parent ++ parts]. *)
Fixpoint walk (fs : gset (list string)) (parent : fpath) (parts : list string)
    : gset (list string) :=
  match parts with
  | [] => fs
  | part :: rest =>
      if exists_in fs (parent ++ [part]) then walk fs (parent ++ [part]) rest
      else walk ({[ parent ++ [part] ]} ∪ fs) (parent ++ [part]) rest
  end.

(** The calls the loop makes on the folders it passes. *)
Fixpoint walk_calls (fs : gset (list string)) (parent : fpath)
    (parts : list string) : list Call :=
  match parts with
  | [] => []
  | part :: rest =>
      CGetFolder parent (String PyStr.backslash part) ::
      (if exists_in fs (parent ++ [part])
       then walk_calls fs (parent ++ [part]) rest
       else CCreateFolder parent part ::
            walk_calls ({[ parent ++ [part] ]} ∪ fs) (parent ++ [part]) rest)
  end.

(** [_get_folder] on the set of folders, and the calls it makes. *)
Definition resolve (fs : gset (list string)) (folder_path : string)
    : gset (list string) :=
  if exists_in fs (Svc.segments folder_path) then fs
  else walk fs [] (path_parts folder_path).

Definition resolve_calls (fs : gset (list string)) (folder_path : string)
    : list Call :=
  CSvcGetFolder folder_path ::
  (if exists_in fs (Svc.segments folder_path) then []
   else CSvcGetFolder (String PyStr.backslash EmptyString) ::
        walk_calls fs [] (path_parts folder_path)).

Definition is_create (c : Call) : bool :=
  match c with
  | CCreateFolder _ _ => true
  | _ => false
  end.

(** The segments of the default of [TaskParams.folder]. *)
Definition default_folder_segments : fpath :=
  ["D:"; "LifeLongLearning"; "windows-automation-python"].

(** A command line argparse refuses: an option outside its choices, or a
    required option or the sub-command missing. *)
Definition usage_error (cl : CommandLine) : Prop :=
  match cl with
  | cl_register o =>
      (∃ t, opt_trigger o = Some t ∧ t ∉ ["daily"; "once"; "logon"]) ∨
      (∃ l, opt_logon o = Some l ∧ l ∉ ["interactive"; "password"; "service"]) ∨
      opt_name o = None ∨ opt_exe o = None ∨ opt_trigger o = None
  | cl_run nm _ | cl_delete nm _ => nm = None
  | cl_list _ => False
  | cl_missing => True
  end.

(** The parameters [main] builds for a [register] command. *)
Definition command_line_params (Path_of : string → PyPath) (o : RegisterOptions)
    (nm ex : string) (lt : Z) : TaskParams :=
  {| name := nm;
     exe := Path_of ex;
     arguments := default EmptyString (opt_args o);
     start_when_available := true;
     run_with_highest := opt_highest o;
     wake_to_run := opt_wake o;
     working_dir := if_truthy (opt_workdir o) Path_of;
     folder := default root_text (opt_folder o);
     logon_type := lt;
     username := opt_username o;
     password := opt_password o |}.

(** The timestamp [main] hands to [register_task]. *)
Definition command_line_when (strptime : string → option datetime)
    (o : RegisterOptions) : option datetime :=
  match if_truthy (opt_at o) id with
  | Some t => strptime t
  | None => None
  end.

(** [keeps m]: running [m] removes no folder and changes neither the clock
    nor whether the service can be reached. *)
Definition keeps {A} (m : M A) : Prop :=
  ∀ w, folders w ⊆ folders (m w).2 ∧ online (m w).2 = online w ∧
       clock (m w).2 = clock w.

(** * Reasoning about computations *)

Lemma bind_inr {A B} (m : M A) (k : A → M B) w b w' :
  bind m k w = (inr b, w') → ∃ a w1, m w = (inr a, w1) ∧ k a w1 = (inr b, w').
Proof.
  unfold bind. destruct (m w) as [[e|a] w1]; intros H; [discriminate|]. eauto.
Qed.

Lemma bind_ok {A B} (m : M A) (k : A → M B) w a w1 :
  m w = (inr a, w1) → bind m k w = k a w1.
Proof. unfold bind. by intros ->. Qed.

Lemma bind_fail {A B} (m : M A) (k : A → M B) w e w1 :
  m w = (inl e, w1) → bind m k w = (inl e, w1).
Proof. unfold bind. by intros ->. Qed.

(** ** What folder resolution leaves alone *)

Lemma frame_refl w : frame w w.
Proof.
  unfold frame. split_and!; try done. exists []. by rewrite app_nil_r.
Qed.

Lemma frame_trans w1 w2 w3 : frame w1 w2 → frame w2 w3 → frame w1 w3.
Proof.
  intros (Ho & Hc & Ht & Hl & Hf & cs & Hcs & Hall)
         (Ho' & Hc' & Ht' & Hl' & Hf' & cs' & Hcs' & Hall').
  unfold frame. split_and!; try congruence; [set_solver|].
  exists (cs ++ cs'). rewrite Hcs', Hcs, app_assoc. split; [done|].
  rewrite forallb_app, Hall, Hall'. done.
Qed.

Lemma framed_ret {A} (a : A) : framed (ret a).
Proof. intros w. apply frame_refl. Qed.

Lemma framed_raise {A} e : framed (@raise A e).
Proof. intros w. apply frame_refl. Qed.

Lemma framed_get_world : framed get_world.
Proof. intros w. apply frame_refl. Qed.

Lemma framed_bind {A B} (m : M A) (k : A → M B) :
  framed m → (∀ a, framed (k a)) → framed (bind m k).
Proof.
  intros Hm Hk w. unfold bind. specialize (Hm w).
  destruct (m w) as [[e|a] w1]; simpl in *; [done|].
  eapply frame_trans; [exact Hm|]. apply Hk.
Qed.

Lemma framed_try_except {A} (m h : M A) :
  framed m → framed h → framed (try_except m h).
Proof.
  intros Hm Hh w. unfold try_except. specialize (Hm w).
  destruct (m w) as [[e|a] w1]; simpl in *; [|done].
  destruct e; simpl; try done; (eapply frame_trans; [exact Hm|]; apply Hh).
Qed.

Lemma framed_record_call c : lookup_call c = true → framed (record_call c).
Proof.
  intros Hc w. unfold frame. split_and!; try done. exists [c]. simpl. by rewrite Hc.
Qed.

Lemma framed_Connect : framed Svc.Connect.
Proof.
  apply framed_bind; [by apply framed_record_call|]. intros _.
  apply framed_bind; [apply framed_get_world|]. intros w.
  destruct (online w); [apply framed_ret | apply framed_raise].
Qed.

Lemma framed_Svc_GetFolder path : framed (Svc.GetFolder path).
Proof.
  apply framed_bind; [by apply framed_record_call|]. intros _.
  apply framed_bind; [apply framed_get_world|]. intros w.
  destruct (Svc.has_folder _ _); [apply framed_ret | apply framed_raise].
Qed.

Lemma framed_Folder_GetFolder parent path : framed (Folder.GetFolder parent path).
Proof.
  apply framed_bind; [by apply framed_record_call|]. intros _.
  apply framed_bind; [apply framed_get_world|]. intros w.
  destruct (Svc.has_folder _ _); [apply framed_ret | apply framed_raise].
Qed.

Lemma framed_Folder_CreateFolder parent path :
  framed (Folder.CreateFolder parent path).
Proof.
  apply framed_bind; [by apply framed_record_call|]. intros _ w.
  unfold bind, get_world. destruct (Svc.has_folder _ _); [apply frame_refl|].
  unfold frame. simpl. split_and!; try done; [set_solver|].
  exists []. by rewrite app_nil_r.
Qed.

Lemma framed_loop parts : ∀ parent, framed (_get_folder_loop parent parts).
Proof.
  induction parts as [|part rest IH]; intros parent; simpl.
  - apply framed_ret.
  - apply framed_bind; [|intros a; apply IH].
    apply framed_try_except;
      [apply framed_Folder_GetFolder | apply framed_Folder_CreateFolder].
Qed.

Lemma framed_get_folder path : framed (_get_folder path).
Proof.
  apply framed_try_except; [apply framed_Svc_GetFolder|].
  apply framed_bind; [apply framed_Svc_GetFolder|]. intros a. apply framed_loop.
Qed.

Lemma framed_session fld : framed (session fld).
Proof.
  apply framed_bind; [apply framed_Connect|]. intros _. apply framed_get_folder.
Qed.

(** ** Equations of the operations *)

Lemma run_ok {A} (r : (exn + A) * World) (a : A) :
  r.1 = inr a → r = (inr a, r.2).
Proof. destruct r as [x w]. simpl. by intros ->. Qed.

Lemma bind_assoc {A B C} (m : M A) (f : A → M B) (g : B → M C) w :
  bind (bind m f) g w = bind m (λ a, bind (f a) g) w.
Proof. unfold bind. by destruct (m w) as [[e|a] w1]. Qed.

Lemma Connect_eq w :
  Svc.Connect w =
  (if online w then inr tt else inl (com_error Unreachable), add_call CConnect w).
Proof. unfold Svc.Connect, bind, record_call, get_world, ret, raise. simpl. by destruct (online w). Qed.

Lemma or_else_str s : PyStr.or_else (Some s) EmptyString = s.
Proof. unfold PyStr.or_else, PyStr.truthy. by case_bool_decide. Qed.

Lemma base_task_def_eq params w :
  _base_task_def params w = (inr (base_def params), add_call (CNewTask 0) w).
Proof.
  unfold _base_task_def, bind, Svc.NewTask, record_call, ret, base_def.
  rewrite or_else_str. by destruct (working_dir params).
Qed.

Lemma register_task_eq params trigger when w :
  register_task params trigger when w =
  bind (session (folder params)) (submit params trigger when) w.
Proof. unfold register_task, session. by rewrite bind_assoc. Qed.

Lemma run_task_eq nm fld w :
  run_task nm fld w =
  bind (session fld)
       (λ f, let! task := Folder.GetTask f nm in
             Task.Run task EmptyString >> logging_info (LogTriggered nm)) w.
Proof. unfold run_task, session. by rewrite bind_assoc. Qed.

Lemma list_tasks_eq fld w :
  list_tasks fld w =
  bind (session fld)
       (λ f, let! ts := Task.GetTasks f 0 in
             for_each ts (λ t, logging_info
               (LogTask (Name t) (State t) (NextRunTime t) (Path t)))) w.
Proof. unfold list_tasks, session. by rewrite bind_assoc. Qed.

(** A session begins by connecting, and the calls that follow are folder
    calls. *)
Lemma session_calls fld w :
  ∃ cs, calls (session fld w).2 = calls w ++ CConnect :: cs ∧
        forallb lookup_call cs = true.
Proof.
  unfold session, _connect, bind. rewrite Connect_eq.
  destruct (online w); simpl.
  - destruct (framed_get_folder fld (add_call CConnect w))
      as (_ & _ & _ & _ & _ & cs & Hcs & Hall).
    exists cs. rewrite Hcs. simpl. by rewrite <- app_assoc.
  - by exists [].
Qed.

Lemma lookup_not_register cs :
  forallb lookup_call cs = true → forallb (λ c, negb (is_register c)) cs = true.
Proof.
  induction cs as [|c cs IH]; simpl; [done|].
  intros [Hc Hcs]%andb_true_iff. rewrite IH by done. by destruct c.
Qed.

Lemma lookup_not_run cs :
  forallb lookup_call cs = true → forallb (λ c, negb (is_run c)) cs = true.
Proof.
  induction cs as [|c cs IH]; simpl; [done|].
  intros [Hc Hcs]%andb_true_iff. rewrite IH by done. by destruct c.
Qed.

Lemma attach_trigger_unsupported td trigger when w :
  trigger ∉ ["daily"; "once"; "logon"] →
  attach_trigger td trigger when w = (inl (ValueError trigger_error), w).
Proof.
  intros Hn. unfold attach_trigger.
  repeat case_decide; try done; subst; exfalso; apply Hn; set_solver.
Qed.

(** * The claims *)

(** C1 (as amended).  For a trigger kind other than daily, once and logon,
    [register_task] fails and submits no registration: the tasks of the
    service are untouched and no [RegisterTaskDefinition] call is made.  The
    check comes after the connection and the folder resolution, though: the
    connection is always opened first, and when the folder is resolved the
    failure is the [ValueError] of the trigger check, raised right after
    [NewTask]. *)
Theorem C1_unsupported_trigger_fails_after_resolution
    (params : TaskParams) (trigger : string) (when : option datetime) (w : World) :
  trigger ∉ ["daily"; "once"; "logon"] →
  ∃ e w' cs,
    register_task params trigger when w = (inl e, w') ∧
    tasks w' = tasks w ∧
    calls w' = calls w ++ CConnect :: cs ∧
    forallb (λ c, negb (is_register c)) cs = true ∧
    (∀ f w1, session (folder params) w = (inr f, w1) →
             e = ValueError trigger_error ∧ w' = add_call (CNewTask 0) w1).
Proof.
  intros Hn. rewrite register_task_eq. unfold bind at 1.
  destruct (session_calls (folder params) w) as (cs & Hcs & Hall).
  destruct (framed_session (folder params) w) as (_ & _ & Ht & _).
  destruct (session (folder params) w) as [[e|f] w1] eqn:Hs; simpl in *.
  - exists e, w1, cs. split_and!; try done.
    by apply lookup_not_register.
  - unfold submit, bind at 1. rewrite base_task_def_eq.
    unfold bind at 1. rewrite attach_trigger_unsupported by done.
    exists (ValueError trigger_error), (add_call (CNewTask 0) w1), (cs ++ [CNewTask 0]).
    split_and!; try done.
    + simpl. rewrite Hcs. by rewrite <- app_assoc.
    + rewrite forallb_app, lookup_not_register by done. done.
    + intros f' w1' [= <- <-]. done.
Qed.

(** C1, witness: the trigger kind "weekly" against a fresh service. *)
Lemma C1_witness :
  ∃ e w' cs,
    register_task (Sample.job "\Jobs") "weekly" None Sample.fresh = (inl e, w') ∧
    tasks w' = tasks Sample.fresh ∧
    calls w' = calls Sample.fresh ++ CConnect :: cs ∧
    forallb (λ c, negb (is_register c)) cs = true ∧
    (∀ f w1, session (folder (Sample.job "\Jobs")) Sample.fresh = (inr f, w1) →
             e = ValueError trigger_error ∧ w' = add_call (CNewTask 0) w1).
Proof.
  apply (C1_unsupported_trigger_fails_after_resolution
           (Sample.job "\Jobs") "weekly" None Sample.fresh).
  vm_compute. intros H. by repeat (inversion H as [|? ? ? H']; clear H; rename H' into H).
Defined.

(** C1, counterexample to the claim as written: with the trigger kind
    "weekly" the [ValueError] comes only after the connection was opened, the
    folder looked up and created, and a blank definition requested. *)
Lemma C1_counterexample :
  let r := register_task (Sample.job "\Jobs") "weekly" None Sample.fresh in
  r.1 = inl (ValueError trigger_error) ∧
  calls r.2 =
    [CConnect; CSvcGetFolder "\Jobs"; CSvcGetFolder "\"; CGetFolder [] "\Jobs";
     CCreateFolder [] "Jobs"; CNewTask 0] ∧
  elements (folders r.2) = [["Jobs"]] ∧
  elements (folders Sample.fresh) = [].
Proof. vm_compute. done. Qed.

Lemma attach_trigger_eq td trigger when w :
  attach_trigger td trigger when w =
  (match attached td trigger when (clock w) with
   | Some td' => inr td'
   | None => inl (ValueError trigger_error)
   end, w).
Proof.
  unfold attach_trigger, attached.
  repeat case_decide; try done; by destruct when.
Qed.

Lemma RegisterTaskDefinition_upsert f nm td u pw lg w :
  Folder.RegisterTaskDefinition f nm td TASK_CREATE_OR_UPDATE u pw lg w =
  (inr tt,
   with_tasks (<[(f, nm) := mkRegisteredTask td u pw lg 3]> (tasks w))
     (add_call (CRegisterTaskDefinition f nm td TASK_CREATE_OR_UPDATE u pw lg) w)).
Proof.
  unfold Folder.RegisterTaskDefinition, bind, record_call, get_world. simpl.
  by destruct (tasks w !! (f, nm)).
Qed.

Lemma submit_eq params trigger when f w :
  submit params trigger when f w =
  match attached (base_def params) trigger when (clock w) with
  | Some td => (inr tt, registered params td f w)
  | None => (inl (ValueError trigger_error), add_call (CNewTask 0) w)
  end.
Proof.
  unfold submit, bind at 1. rewrite base_task_def_eq.
  unfold bind at 1. rewrite attach_trigger_eq. simpl.
  destruct (attached _ _ _ _) as [td|]; [|done].
  unfold bind. by rewrite RegisterTaskDefinition_upsert.
Qed.

(** A successful registration, taken apart. *)
Lemma register_task_ok params trigger when w w' :
  register_task params trigger when w = (inr tt, w') →
  ∃ f w1 td,
    session (folder params) w = (inr f, w1) ∧
    attached (base_def params) trigger when (clock w) = Some td ∧
    w' = registered params td f w1.
Proof.
  rewrite register_task_eq. intros (f & w1 & Hs & Hsub)%bind_inr.
  rewrite submit_eq in Hsub.
  destruct (framed_session (folder params) w) as (_ & Hc & _).
  rewrite Hs in Hc. simpl in Hc. rewrite Hc in Hsub.
  destruct (attached _ _ _ _) as [td|] eqn:Ha; [|done].
  exists f, w1, td. by injection Hsub as <-.
Qed.

Lemma register_task_run params trigger when w f w1 td :
  session (folder params) w = (inr f, w1) →
  attached (base_def params) trigger when (clock w) = Some td →
  register_task params trigger when w = (inr tt, registered params td f w1).
Proof.
  intros Hs Ha. rewrite register_task_eq. erewrite bind_ok by exact Hs.
  rewrite submit_eq.
  destruct (framed_session (folder params) w) as (_ & Hc & _).
  rewrite Hs in Hc. simpl in Hc. by rewrite Hc, Ha.
Qed.

Lemma attached_shape td trigger when now td' :
  attached td trigger when now = Some td' →
  RegistrationInfo_ td' = RegistrationInfo_ td ∧ Settings_ td' = Settings_ td ∧
  RunLevel td' = RunLevel td ∧ Actions td' = Actions td ∧
  ∃ t, Triggers td' = Triggers td ++ [t].
Proof.
  unfold attached. repeat case_decide; intros [= <-]; split_and!; try done; eauto.
Qed.

(** C5 (as amended).  [_base_task_def] does not examine the executable path:
    for all parameters, an empty path included, it returns a definition with
    exactly one action, of type exec, whose path is [str(params.exe)]; the
    only call it makes is [NewTask]. *)
Theorem C5_base_task_def_total (params : TaskParams) (w : World) :
  ∃ td,
    _base_task_def params w = (inr td, add_call (CNewTask 0) w) ∧
    Actions td =
      [ {| ActionType := TASK_ACTION_EXEC;
           ActionPath := path_str (exe params);
           Arguments := arguments params;
           WorkingDirectory := path_str <$> working_dir params |} ].
Proof. exists (base_def params). by rewrite base_task_def_eq. Qed.

(** C5, counterexample to the claim as written: with [Path("")] as the
    executable the definition is built, and the registration goes through. *)
Lemma C5_counterexample :
  let params := TaskParams_defaults "Job" Sample.empty_path in
  (_base_task_def params Sample.fresh).1 = inr (base_def params) ∧
  ActionPath <$> Actions (base_def params) = ["."] ∧
  (register_task params "daily" None Sample.fresh).1 = inr tt.
Proof. vm_compute. done. Qed.

(** C4 (as amended).  The user name and the password given to
    [RegisterTaskDefinition] are [params.username] and [params.password],
    with [None] and the empty string both passed as the empty string,
    whatever the logon kind: the last call of a successful registration is
    that one. *)
Theorem C4_credentials_forwarded_as_given
    (params : TaskParams) (trigger : string) (when : option datetime)
    (w w' : World) :
  register_task params trigger when w = (inr tt, w') →
  ∃ f td,
    last (calls w') =
      Some (CRegisterTaskDefinition f (name params) td TASK_CREATE_OR_UPDATE
              (PyStr.or_else (username params) EmptyString)
              (PyStr.or_else (password params) EmptyString)
              (logon_type params)) ∧
    rt_user_id <$> tasks w' !! (f, name params) =
      Some (PyStr.or_else (username params) EmptyString) ∧
    rt_password <$> tasks w' !! (f, name params) =
      Some (PyStr.or_else (password params) EmptyString).
Proof.
  intros (f & w1 & td & Hs & Ha & ->)%register_task_ok.
  exists f, td. simpl. rewrite lookup_insert_eq. split_and!; try done.
  apply last_snoc.
Qed.

(** C4, counterexample to the claim as written: interactive logon with a
    user name and a password set; both reach the service. *)
Lemma C4_counterexample :
  let params :=
    {| name := "Job"; exe := Sample.python; arguments := EmptyString;
       start_when_available := true; run_with_highest := true;
       wake_to_run := false; working_dir := None; folder := "\";
       logon_type := TASK_LOGON_INTERACTIVE_TOKEN;
       username := Some "bob"; password := Some "hunter2" |} in
  let r := register_task params "logon" None Sample.fresh in
  r.1 = inr tt ∧
  last (calls r.2) =
    Some (CRegisterTaskDefinition [] "Job"
            (add_logon_trigger (base_def params)) 6 "bob" "hunter2" 3).
Proof. vm_compute. done. Qed.

(** C4, witness: the same parameters, in the folder at the root. *)
Lemma C4_witness :
  let params :=
    {| name := "Job"; exe := Sample.python; arguments := EmptyString;
       start_when_available := true; run_with_highest := true;
       wake_to_run := false; working_dir := None; folder := "\";
       logon_type := TASK_LOGON_INTERACTIVE_TOKEN;
       username := Some "bob"; password := Some "hunter2" |} in
  ∃ f td,
    last (calls (register_task params "logon" None Sample.fresh).2) =
      Some (CRegisterTaskDefinition f "Job" td TASK_CREATE_OR_UPDATE
              "bob" "hunter2" TASK_LOGON_INTERACTIVE_TOKEN) ∧
    rt_user_id <$> tasks (register_task params "logon" None Sample.fresh).2 !! (f, "Job") =
      Some "bob" ∧
    rt_password <$> tasks (register_task params "logon" None Sample.fresh).2 !! (f, "Job") =
      Some "hunter2".
Proof.
  intros params.
  apply (C4_credentials_forwarded_as_given params "logon" None Sample.fresh).
  apply run_ok. vm_compute. reflexivity.
Defined.

Lemma default_boundary_range (now : datetime) :
  let s := strftime_seconds (now + timedelta_minutes 2) in
  now ≤ s * 1000000 ≤ now + timedelta_minutes 2.
Proof.
  unfold strftime_seconds, timedelta_minutes. simpl.
  pose proof (Z.mod_pos_bound (now + 2 * 60 * 1000000) 1000000 eq_refl) as Hm.
  pose proof (Z.div_mod (now + 2 * 60 * 1000000) 1000000 ltac:(done)) as Hd.
  lia.
Qed.

(** C8.  When [register_task] succeeds with the trigger kind daily or once
    and no [when], the registered definition has a single trigger, of that
    kind, whose start boundary is the second of the clock at registration
    plus two minutes; that boundary, which the service announces as the next
    run, lies between the clock value and the clock value plus two minutes. *)
Theorem C8_default_start_is_clock_plus_two_minutes
    (params : TaskParams) (trigger : string) (w w' : World) :
  trigger ∈ ["daily"; "once"] →
  register_task params trigger None w = (inr tt, w') →
  let s := strftime_seconds (clock w + timedelta_minutes 2) in
  ∃ f w1 rt t,
    session (folder params) w = (inr f, w1) ∧
    tasks w' !! (f, name params) = Some rt ∧
    Triggers (rt_definition rt) = [t] ∧
    TriggerType t =
      (if decide (trigger = "daily") then TASK_TRIGGER_DAILY else TASK_TRIGGER_TIME) ∧
    StartBoundary t = Some s ∧
    Task.next_run (rt_definition rt) = Some s ∧
    clock w ≤ s * 1000000 ≤ clock w + timedelta_minutes 2.
Proof.
  intros Hk (f & w1 & td & Hs & Ha & ->)%register_task_ok s.
  exists f, w1, (record_of params td). unfold attached in Ha.
  destruct (default_boundary_range (clock w)) as [Hlo Hhi].
  rewrite !elem_of_cons, elem_of_nil in Hk. destruct Hk as [->|[->|[]]].
  - injection Ha as <-. eexists. simpl. rewrite lookup_insert_eq. by split_and!.
  - injection Ha as <-. eexists. simpl. rewrite lookup_insert_eq. by split_and!.
Qed.

(** C8, witness: a daily job registered at the root, the clock at 30.5 s. *)
Lemma C8_witness :
  let w := with_clock 30500000 Sample.fresh in
  let r := register_task (Sample.job "\") "daily" None w in
  "daily" ∈ ["daily"; "once"] ∧ r.1 = inr tt ∧
  ∃ f w1 rt t,
    session "\" w = (inr f, w1) ∧
    tasks r.2 !! (f, "Job") = Some rt ∧
    Triggers (rt_definition rt) = [t] ∧
    TriggerType t = TASK_TRIGGER_DAILY ∧
    StartBoundary t = Some 150 ∧
    Task.next_run (rt_definition rt) = Some 150 ∧
    30500000 ≤ 150 * 1000000 ≤ 30500000 + timedelta_minutes 2.
Proof.
  intros w r. split; [by left|]. split; [vm_compute; reflexivity|].
  apply (C8_default_start_is_clock_plus_two_minutes (Sample.job "\") "daily" w r.2).
  - by left.
  - apply run_ok. vm_compute. reflexivity.
Defined.

Lemma GetTask_missing f nm w :
  tasks w !! (f, nm) = None →
  Folder.GetTask f nm w = (inl (com_error TaskNotFound), add_call (CGetTask f nm) w).
Proof.
  intros Hn. unfold Folder.GetTask, bind, record_call, get_world. simpl.
  by rewrite Hn.
Qed.

(** C9.  When the folder [run_task] resolves holds no task of the given
    name, [run_task] fails with the not-found error of [GetTask], which is
    its last call: no run is requested. *)
Theorem C9_run_of_absent_task_fails
    (nm fld : string) (w : World) (f : fpath) (w1 : World) :
  session fld w = (inr f, w1) →
  tasks w !! (f, nm) = None →
  run_task nm fld w = (inl (com_error TaskNotFound), add_call (CGetTask f nm) w1) ∧
  ∃ cs, calls (add_call (CGetTask f nm) w1) = calls w ++ cs ∧
        forallb (λ c, negb (is_run c)) cs = true.
Proof.
  intros Hs Hn. rewrite run_task_eq. erewrite bind_ok by exact Hs.
  destruct (framed_session fld w) as (_ & _ & Ht & _ & _ & cs & Hcs & Hall).
  rewrite Hs in Ht, Hcs. simpl in Ht, Hcs.
  erewrite bind_fail; [|apply GetTask_missing; by rewrite Ht].
  split; [done|]. exists (cs ++ [CGetTask f nm]). simpl.
  rewrite Hcs, app_assoc. split; [done|].
  by rewrite forallb_app, lookup_not_run.
Qed.

(** C9, witness: the task "Ghost" was never registered in the folder Jobs. *)
Lemma C9_witness :
  let w := Sample.holding [["Jobs"]] in
  let w1 := add_call (CSvcGetFolder "\Jobs") (add_call CConnect w) in
  run_task "Ghost" "\Jobs" w =
    (inl (com_error TaskNotFound), add_call (CGetTask ["Jobs"] "Ghost") w1) ∧
  ∃ cs, calls (add_call (CGetTask ["Jobs"] "Ghost") w1) = calls w ++ cs ∧
        forallb (λ c, negb (is_run c)) cs = true.
Proof.
  intros w w1.
  apply (C9_run_of_absent_task_fails "Ghost" "\Jobs" w ["Jobs"] w1).
  - vm_compute. reflexivity.
  - vm_compute. reflexivity.
Defined.

Lemma for_each_logging (ts : list TaskView) w :
  for_each ts (λ t, logging_info (task_line t)) w =
  (inr tt, add_logs (task_line <$> ts) w).
Proof.
  revert w. induction ts as [|t ts IH]; intros w; simpl.
  - unfold ret, add_logs. rewrite app_nil_r. by destruct w.
  - unfold bind, logging_info. rewrite IH. unfold add_logs, add_log. simpl.
    by rewrite <- app_assoc.
Qed.

Lemma tasks_in_lookup w f nm st nr path :
  LogTask nm st nr path ∈ task_line <$> Task.tasks_in w f ↔
  ∃ rt, tasks w !! (f, nm) = Some rt ∧ st = rt_state rt ∧
        nr = Task.next_run (rt_definition rt) ∧ path = Task.path_text f nm.
Proof.
  unfold Task.tasks_in. rewrite <- list_fmap_compose. rewrite list_elem_of_fmap.
  split.
  - intros ([[g nm'] rt] & Heq & Hin). apply list_elem_of_filter in Hin as [Hg Hin].
    simpl in Hg. subst g. apply elem_of_map_to_list in Hin.
    injection Heq as -> -> -> ->. by exists rt.
  - intros (rt & Hl & -> & -> & ->). exists ((f, nm), rt). split; [done|].
    apply list_elem_of_filter. split; [done|]. by apply elem_of_map_to_list.
Qed.

(** C6.  Once the folder is resolved, [list_tasks] asks the service for the
    tasks of that folder ([GetTasks], its last call) and logs one line per
    task the service holds there at that moment, with the name, the state,
    the next run and the path of the task: a finite list, computed from the
    tasks of the service alone, with nothing kept from one call to the
    next; the tasks themselves are left as they are. *)
Theorem C6_list_reads_the_service
    (fld : string) (w : World) (f : fpath) (w1 : World) :
  session fld w = (inr f, w1) →
  ∃ w2,
    list_tasks fld w = (inr tt, w2) ∧
    logged w2 = logged w ++ (task_line <$> Task.tasks_in w f) ∧
    tasks w2 = tasks w ∧
    calls w2 = calls w1 ++ [CGetTasks f 0] ∧
    ∀ nm st nr path,
      LogTask nm st nr path ∈ task_line <$> Task.tasks_in w f ↔
      ∃ rt, tasks w !! (f, nm) = Some rt ∧ st = rt_state rt ∧
            nr = Task.next_run (rt_definition rt) ∧ path = Task.path_text f nm.
Proof.
  intros Hs. rewrite list_tasks_eq. erewrite bind_ok by exact Hs.
  destruct (framed_session fld w) as (_ & _ & Ht & Hl & _).
  rewrite Hs in Ht, Hl. simpl in Ht, Hl.
  unfold bind, Task.GetTasks, record_call, get_world, ret. simpl.
  eexists. split.
  - apply (for_each_logging _ (add_call (CGetTasks f 0) w1)).
  - simpl. unfold Task.tasks_in at 1. simpl. rewrite Ht, Hl. split_and!; try done.
    intros. apply tasks_in_lookup.
Qed.

(** C6, witness: listing a folder after a registration in it shows the job. *)
Lemma C6_witness :
  let w := (register_task (Sample.job "\Jobs") "daily" (Some 1735722000000000)
                          Sample.fresh).2 in
  let w1 := add_call (CSvcGetFolder "\Jobs") (add_call CConnect w) in
  ∃ w2,
    list_tasks "\Jobs" w = (inr tt, w2) ∧
    logged w2 = logged w ++ (task_line <$> Task.tasks_in w ["Jobs"]) ∧
    tasks w2 = tasks w ∧
    calls w2 = calls w1 ++ [CGetTasks ["Jobs"] 0] ∧
    ∀ nm st nr path,
      LogTask nm st nr path ∈ task_line <$> Task.tasks_in w ["Jobs"] ↔
      ∃ rt, tasks w !! (["Jobs"], nm) = Some rt ∧ st = rt_state rt ∧
            nr = Task.next_run (rt_definition rt) ∧
            path = Task.path_text ["Jobs"] nm.
Proof.
  intros w w1. apply (C6_list_reads_the_service "\Jobs" w ["Jobs"] w1).
  vm_compute. reflexivity.
Defined.

(** The first scenario of the specification: after the registration, the
    listing shows the job with the timestamp given as its next run. *)
Example list_after_register :
  let w := (register_task (Sample.job "\Jobs") "daily" (Some 1735722000000000)
                          Sample.fresh).2 in
  logged (list_tasks "\Jobs" w).2 =
  [LogRegistered "Job" "\Jobs"; LogTask "Job" 3 (Some 1735722000) "\Jobs\Job"].
Proof. by vm_compute. Qed.

Lemma parse_args_world cl w : (parse_args cl w).2 = w.
Proof.
  destruct cl as [o|nm fld|nm fld|fld|]; simpl; try done.
  - unfold bind, choices, required, ret, raise.
    destruct (opt_trigger o) as [t|]; [case_bool_decide|];
      (destruct (opt_logon o) as [l|]; [try case_bool_decide|]);
      destruct (opt_name o), (opt_exe o); done.
  - by destruct nm.
  - by destruct nm.
Qed.

Lemma parse_register o w ns :
  (parse_args (cl_register o) w).1 = inr ns →
  ∃ nm ex args fld trigger workdir highest wake logon user pass,
    ns = ns_register nm ex args fld trigger (opt_at o) workdir highest wake
                     logon user pass.
Proof.
  simpl. unfold bind, choices, required, ret, raise.
  destruct (opt_trigger o) as [t|]; [case_bool_decide|];
    (destruct (opt_logon o) as [l|]; [try case_bool_decide|]);
    destruct (opt_name o), (opt_exe o); simpl; intros Hns; simplify_eq;
    by repeat eexists.
Qed.

(** C7 (as amended).  For a [register] command line that argparse accepts
    and whose [--at] value is not empty and is refused by [strptime], [main]
    fails with the [ValueError] of [strptime] and leaves the world as it
    was: no connection is opened, no call reaches the service. *)
Theorem C7_malformed_timestamp_fails_first
    (Path_of : string → PyPath) (strptime : string → option datetime)
    (o : RegisterOptions) (t : string) (ns : Namespace) (w : World) :
  (parse_args (cl_register o) w).1 = inr ns →
  opt_at o = Some t →
  t ≠ EmptyString →
  strptime t = None →
  main Path_of strptime (cl_register o) w = (inl (ValueError time_error), w).
Proof.
  intros Hp Hat Ht Hs. pose proof (parse_args_world (cl_register o) w) as Hw.
  destruct (parse_register o w ns Hp)
    as (nm & ex & args & fld & trigger & workdir & highest & wake & logon & user
        & pass & ->).
  unfold main. destruct (parse_args (cl_register o) w) as [r w'] eqn:Hpa.
  simpl in Hp, Hw. subst r w'.
  erewrite bind_ok by exact Hpa. rewrite Hat. unfold if_truthy, PyStr.truthy.
  rewrite bool_decide_eq_false_2 by done. simpl. by rewrite Hs.
Qed.

(** C7, witness: [--at tomorrow]. *)
Lemma C7_witness :
  let o := Sample.register_options "daily" (Some "tomorrow") in
  main Sample.Path_of Sample.strptime (cl_register o) Sample.fresh =
    (inl (ValueError time_error), Sample.fresh).
Proof.
  intros o.
  apply (C7_malformed_timestamp_fails_first Sample.Path_of Sample.strptime o
           "tomorrow"
           (ns_register "Job" "C:\Python\python.exe" EmptyString "\" "daily"
              (Some "tomorrow") None false false "interactive" None None)
           Sample.fresh).
  - vm_compute. reflexivity.
  - reflexivity.
  - discriminate.
  - vm_compute. reflexivity.
Defined.

(** C7, counterexample to the claim as written: an empty [--at] value is no
    timestamp, yet it is taken as no value at all; the command connects,
    registers the task two minutes ahead and returns 0. *)
Lemma C7_counterexample :
  let o := Sample.register_options "daily" (Some EmptyString) in
  let r := main Sample.Path_of Sample.strptime (cl_register o) Sample.fresh in
  Sample.strptime EmptyString = None ∧
  r.1 = inr 0 ∧
  is_register <$> calls r.2 = [false; false; false; true] ∧
  (Task.next_run ∘ rt_definition) <$> tasks r.2 !! ([], "Job") = Some (Some 120).
Proof. by vm_compute. Qed.

(** ** Splitting a path into segments *)

Lemma split_nonnil c s : PyStr.split c s ≠ [].
Proof.
  destruct s as [|a s]; simpl; [done|].
  case_decide; [done|]. by destruct (PyStr.split c s).
Qed.

Lemma split_fields_free c s : Forall (λ f, occurs c f = false) (PyStr.split c s).
Proof.
  induction s as [|a s IH]; simpl.
  - by repeat constructor.
  - case_decide as Ha.
    + by constructor.
    + destruct (PyStr.split c s) as [|f fs].
      * repeat constructor. simpl. by rewrite bool_decide_eq_false_2.
      * inversion IH as [|? ? Hf Hfs]; subst. constructor; [|done].
        simpl. by rewrite bool_decide_eq_false_2.
Qed.

Lemma split_free c s : occurs c s = false → PyStr.split c s = [s].
Proof.
  induction s as [|a s IH]; simpl; [done|].
  intros [Ha Hs]%orb_false_iff. apply bool_decide_eq_false in Ha.
  rewrite decide_False by done. by rewrite IH.
Qed.

Lemma path_parts_segments s : Forall segment (path_parts s).
Proof.
  unfold path_parts, PyStr.nonempty_fields. apply Forall_forall.
  intros p [Hp Hin]%list_elem_of_filter. split; [done|].
  pose proof (split_fields_free PyStr.backslash
                (PyStr.strip PyStr.backslash s)) as Hall.
  rewrite Forall_forall in Hall. by apply Hall.
Qed.

Lemma segments_of_segment p : segment p → Svc.segments p = [p].
Proof.
  intros [Hne Hfree]. unfold Svc.segments, PyStr.nonempty_fields.
  rewrite split_free by done. by rewrite filter_cons_True, filter_nil.
Qed.

Lemma locate_plain parent p : segment p → Svc.locate parent p = parent ++ [p].
Proof. intros Hp. unfold Svc.locate. by rewrite segments_of_segment. Qed.

Lemma locate_prefixed parent p :
  segment p → Svc.locate parent (String PyStr.backslash p) = parent ++ [p].
Proof.
  intros Hp. unfold Svc.locate. f_equal.
  unfold Svc.segments. simpl.
  unfold PyStr.nonempty_fields. rewrite filter_cons_False by naive_solver.
  by apply segments_of_segment.
Qed.

(** Stripping the backslashes at both ends changes no segment. *)
Lemma split_lstrip c s :
  PyStr.nonempty_fields (PyStr.split c (PyStr.lstrip c s)) =
  PyStr.nonempty_fields (PyStr.split c s).
Proof.
  unfold PyStr.nonempty_fields.
  induction s as [|a s IH]; simpl; [done|].
  case_decide as Ha.
  - by rewrite filter_cons_False by naive_solver.
  - simpl. by rewrite decide_False.
Qed.

Lemma split_rstrip c s :
  ∃ k, PyStr.split c s = PyStr.split c (PyStr.rstrip c s) ++ replicate k EmptyString.
Proof.
  induction s as [|a s [k IH]]; simpl.
  - by exists 0%nat.
  - destruct (PyStr.rstrip c s) as [|b r] eqn:Hr.
    + destruct (decide (a = c)) as [Ha|Ha].
      * exists (S k). by rewrite IH.
      * exists k. simpl. rewrite decide_False by done. by rewrite IH.
    + remember (String b r) as t eqn:Ht.
      destruct (decide (a = c)) as [Ha|Ha].
      * exists k. simpl. rewrite decide_True by done. by rewrite IH.
      * exists k. simpl. rewrite decide_False by done. rewrite IH.
        pose proof (split_nonnil c t) as Hn.
        by destruct (PyStr.split c t).
Qed.

Lemma segments_path_parts s : Svc.segments s = path_parts s.
Proof.
  unfold Svc.segments, path_parts, PyStr.strip.
  rewrite <- (split_lstrip PyStr.backslash s).
  destruct (split_rstrip PyStr.backslash (PyStr.lstrip PyStr.backslash s)) as [k ->].
  unfold PyStr.nonempty_fields. rewrite filter_app.
  assert (filter (λ p : string, p ≠ EmptyString) (replicate k EmptyString) = []) as ->.
  { induction k as [|k IH]; simpl; [done|]. by rewrite filter_cons_False by naive_solver. }
  by rewrite app_nil_r.
Qed.
(** ** The loop of [_get_folder], step by step *)

Lemma loop_step parent part w :
  segment part →
  try_except (Folder.GetFolder parent (String PyStr.backslash part))
             (Folder.CreateFolder parent part) w =
  let w1 := add_call (CGetFolder parent (String PyStr.backslash part)) w in
  if exists_in (folders w) (parent ++ [part]) then (inr (parent ++ [part]), w1)
  else (inr (parent ++ [part]),
        with_folders ({[ parent ++ [part] ]} ∪ folders w)
          (add_call (CCreateFolder parent part) w1)).
Proof.
  intros Hp. unfold try_except, Folder.GetFolder, Folder.CreateFolder, bind,
    record_call, get_world, Svc.has_folder, ret, raise, set_folders. simpl.
  rewrite locate_prefixed, locate_plain by done.
  fold (exists_in (folders w) (parent ++ [part])).
  destruct (exists_in (folders w) (parent ++ [part])) eqn:He; [done|].
  unfold exists_in in He. simpl. by rewrite He.
Qed.

(** The loop never fails: it ends on the folder [parent ++ parts], having
    changed the folders and the record of calls as [walk] and [walk_calls]
    say, and nothing else. *)
Lemma loop_walk parts :
  Forall segment parts → ∀ parent w,
  (_get_folder_loop parent parts w).1 = inr (parent ++ parts) ∧
  folders (_get_folder_loop parent parts w).2 = walk (folders w) parent parts ∧
  calls (_get_folder_loop parent parts w).2 =
    calls w ++ walk_calls (folders w) parent parts ∧
  online (_get_folder_loop parent parts w).2 = online w ∧
  clock (_get_folder_loop parent parts w).2 = clock w ∧
  tasks (_get_folder_loop parent parts w).2 = tasks w ∧
  logged (_get_folder_loop parent parts w).2 = logged w.
Proof.
  induction 1 as [|part rest Hp Hrest IH]; intros parent w; simpl.
  - by rewrite !app_nil_r.
  - unfold bind. rewrite loop_step by done. simpl.
    rewrite (cons_middle part parent rest), app_assoc.
    destruct (exists_in (folders w) (parent ++ [part])).
    + destruct (IH (parent ++ [part])
                  (add_call (CGetFolder parent (String PyStr.backslash part)) w))
        as (? & ? & Hc & ? & ? & ? & ?).
      split_and!; try done. rewrite Hc. simpl. by rewrite <- app_assoc.
    + destruct (IH (parent ++ [part])
                  (with_folders ({[ parent ++ [part] ]} ∪ folders w)
                     (add_call (CCreateFolder parent part)
                        (add_call (CGetFolder parent (String PyStr.backslash part)) w))))
        as (? & ? & Hc & ? & ? & ? & ?).
      split_and!; try done. rewrite Hc. simpl. by rewrite <- !app_assoc.
Qed.

Lemma Svc_GetFolder_eq path w :
  Svc.GetFolder path w =
  (if exists_in (folders w) (Svc.segments path) then inr (Svc.segments path)
   else inl (com_error FolderNotFound),
   add_call (CSvcGetFolder path) w).
Proof.
  unfold Svc.GetFolder, bind, record_call, get_world, Svc.has_folder, exists_in,
    ret, raise. simpl. by case_bool_decide.
Qed.

(** [_get_folder] never fails: it returns the folder the path names, having
    changed the folders and the record of calls as [resolve] and
    [resolve_calls] say, and nothing else. *)
Lemma get_folder_resolve s w :
  (_get_folder s w).1 = inr (path_parts s) ∧
  folders (_get_folder s w).2 = resolve (folders w) s ∧
  calls (_get_folder s w).2 = calls w ++ resolve_calls (folders w) s ∧
  online (_get_folder s w).2 = online w ∧
  clock (_get_folder s w).2 = clock w ∧
  tasks (_get_folder s w).2 = tasks w ∧
  logged (_get_folder s w).2 = logged w.
Proof.
  unfold _get_folder, try_except, resolve, resolve_calls. rewrite Svc_GetFolder_eq.
  destruct (exists_in (folders w) (Svc.segments s)).
  { simpl. by rewrite segments_path_parts. }
  unfold bind. rewrite Svc_GetFolder_eq. simpl.
  change (Svc.segments (String PyStr.backslash EmptyString)) with (@nil string).
  destruct (loop_walk _ (path_parts_segments s) []
              (add_call (CSvcGetFolder (String PyStr.backslash EmptyString))
                 (add_call (CSvcGetFolder s) w)))
    as (Hr & Hf & Hc & ? & ? & ? & ?).
  split_and!; try done. rewrite Hc. simpl. by rewrite <- !app_assoc.
Qed.

(** On a reachable service the common beginning of the four operations
    succeeds. *)
Lemma session_online fld w :
  online w = true →
  ∃ w1, session fld w = (inr (path_parts fld), w1) ∧
        folders w1 = resolve (folders w) fld ∧
        calls w1 = calls w ++ CConnect :: resolve_calls (folders w) fld ∧
        online w1 = true ∧ clock w1 = clock w ∧ tasks w1 = tasks w ∧
        logged w1 = logged w.
Proof.
  intros Ho. unfold session, _connect, bind. rewrite Connect_eq, Ho.
  destruct (get_folder_resolve fld (add_call CConnect w))
    as (Hr & Hf & Hc & Hon & ? & ? & ?).
  exists (_get_folder fld (add_call CConnect w)).2.
  split_and!; try done.
  - by apply run_ok.
  - rewrite Hc. simpl. by rewrite <- app_assoc.
  - by rewrite Hon.
Qed.

Lemma session_resolve fld w f w1 :
  session fld w = (inr f, w1) →
  online w = true ∧ f = path_parts fld ∧ folders w1 = resolve (folders w) fld.
Proof.
  destruct (online w) eqn:Ho.
  - destruct (session_online fld w Ho) as (w1' & -> & Hf & _). by intros [= <- <-].
  - unfold session, _connect, bind. rewrite Connect_eq, Ho. done.
Qed.

(** When the folder is there, a reachable service answers the first lookup. *)
Lemma session_existing fld w :
  online w = true →
  exists_in (folders w) (Svc.segments fld) = true →
  session fld w =
  (inr (Svc.segments fld), add_call (CSvcGetFolder fld) (add_call CConnect w)).
Proof.
  intros Ho He. unfold session, _connect, bind. rewrite Connect_eq, Ho.
  unfold _get_folder, try_except. rewrite Svc_GetFolder_eq. simpl. by rewrite He.
Qed.

(** ** The folders a walk leaves *)

Lemma prefix_step (p : string) rest parent (f : fpath) :
  (∃ k, k ≠ [] ∧ k `prefix_of` p :: rest ∧ f = parent ++ k) ↔
  f = parent ++ [p] ∨
  ∃ k, k ≠ [] ∧ k `prefix_of` rest ∧ f = (parent ++ [p]) ++ k.
Proof.
  split.
  - intros ([|a k] & Hk & Hpre & ->); [done|].
    pose proof (prefix_cons_inv_1 _ _ _ _ Hpre) as ->.
    apply prefix_cons_inv_2 in Hpre.
    destruct k as [|b k]; [by left|right].
    exists (b :: k). by rewrite <- app_assoc.
  - intros [-> | (k & Hk & Hpre & ->)].
    + exists [p]. split_and!; [done| |done]. apply prefix_cons, prefix_nil.
    + exists (p :: k). split_and!; [done| |by rewrite <- app_assoc].
      by apply prefix_cons.
Qed.

(** The walk adds the prefixes of the path below [parent], and nothing else. *)
Lemma walk_elem parts : ∀ fs parent f,
  f ∈ walk fs parent parts ↔
  f ∈ fs ∨ ∃ k, k ≠ [] ∧ k `prefix_of` parts ∧ f = parent ++ k.
Proof.
  induction parts as [|p rest IH]; intros fs parent f; simpl.
  - split; [by left|]. intros [?|(k & Hk & Hpre%prefix_nil_inv & _)]; done.
  - rewrite prefix_step.
    destruct (exists_in fs (parent ++ [p])) eqn:He; rewrite IH.
    + apply bool_decide_eq_true in He as [He|He]; [by destruct parent|].
      split; [naive_solver|]. intros [?|[->|?]]; auto.
    + rewrite elem_of_union, elem_of_singleton. naive_solver.
Qed.

Lemma walk_grows fs parent parts : fs ⊆ walk fs parent parts.
Proof. intros f Hf. apply walk_elem. by left. Qed.

Lemma exists_in_mono fs fs1 f : fs ⊆ fs1 → exists_in fs f = true → exists_in fs1 f = true.
Proof.
  unfold exists_in. intros Hsub He%bool_decide_eq_true.
  apply bool_decide_eq_true. set_solver.
Qed.

(** Resolution adds the prefixes of the path when the path is missing, and
    nothing when it is there. *)
Lemma resolve_elem fs s f :
  f ∈ resolve fs s ↔
  f ∈ fs ∨ (exists_in fs (path_parts s) = false ∧ f ≠ [] ∧ f `prefix_of` path_parts s).
Proof.
  unfold resolve. rewrite segments_path_parts.
  destruct (exists_in fs (path_parts s)) eqn:He; [naive_solver|].
  rewrite walk_elem. simpl. naive_solver.
Qed.

Lemma resolve_grows fs s : fs ⊆ resolve fs s.
Proof. intros f Hf. apply resolve_elem. by left. Qed.

(** After resolution the folder is there. *)
Lemma resolve_reaches fs s : exists_in (resolve fs s) (path_parts s) = true.
Proof.
  destruct (exists_in fs (path_parts s)) eqn:He.
  - by apply (exists_in_mono fs), He; apply resolve_grows.
  - apply bool_decide_eq_true.
    destruct (path_parts s) as [|p rest] eqn:Hp; [by left|right].
    apply resolve_elem. right. by rewrite Hp.
Qed.


(** Resolving a path again, over the folders the first resolution has left,
    creates nothing. *)
Lemma resolve_again fs s : resolve (resolve fs s) s = resolve fs s.
Proof.
  unfold resolve at 1. rewrite segments_path_parts. by rewrite resolve_reaches.
Qed.

Lemma resolve_calls_again fs s :
  resolve_calls (resolve fs s) s = [CSvcGetFolder s].
Proof.
  unfold resolve_calls. rewrite segments_path_parts. by rewrite resolve_reaches.
Qed.

(** ** The folders a walk creates *)

(** Every [CreateFolder] of the walk is for a prefix of the path that was
    missing, under the folder the walk has reached. *)
Lemma walk_creates parts : ∀ fs parent par part,
  CCreateFolder par part ∈ walk_calls fs parent parts →
  (par ++ [part] ∉ fs) ∧
  ∃ k, k ≠ [] ∧ k `prefix_of` parts ∧ par ++ [part] = parent ++ k.
Proof.
  induction parts as [|p rest IH]; intros fs parent par part; simpl.
  - by intros ?%elem_of_nil.
  - rewrite prefix_step. intros [?|Hin]%elem_of_cons; [done|].
    destruct (exists_in fs (parent ++ [p])) eqn:He.
    + apply IH in Hin as [? ?]. auto.
    + apply bool_decide_eq_false in He.
      apply elem_of_cons in Hin as [[= -> ->]|Hin]; [naive_solver|].
      apply IH in Hin as [Hn ?]. split; [set_solver|auto].
Qed.

Lemma size_one_more (x : list string) (W fs : gset (list string)) :
  x ∉ fs → {[x]} ∪ fs ⊆ W → size (W ∖ fs) = S (size (W ∖ ({[x]} ∪ fs))).
Proof.
  intros He Hsub.
  replace (W ∖ fs) with ({[x]} ∪ (W ∖ ({[x]} ∪ fs))).
  - rewrite size_union by set_solver. by rewrite size_singleton.
  - apply set_eq. intros y.
    destruct (decide (y = x)) as [->|Hx]; set_solver.
Qed.

(** The walk calls [CreateFolder] once for every folder it adds. *)
Lemma walk_creates_count parts : ∀ fs parent,
  length (filter is_create (walk_calls fs parent parts)) =
  size (walk fs parent parts ∖ fs).
Proof.
  induction parts as [|p rest IH]; intros fs parent; simpl.
  - by rewrite difference_diag_L, size_empty.
  - rewrite filter_cons_False by (simpl; auto).
    destruct (exists_in fs (parent ++ [p])) eqn:He; [apply IH|].
    rewrite filter_cons_True by done. simpl. rewrite IH.
    apply bool_decide_eq_false in He. symmetry. apply size_one_more.
    + intros Hin. apply He. by right.
    + apply walk_grows.
Qed.
(** ** Registering twice *)




(** With [when] left out and the clock five seconds on, the second call
    moves the start by five seconds: 120 s, then 125 s. *)
Example register_again_later :
  let p := Sample.job "\A\B\C" in
  let w1 := (register_task p "daily" None Sample.fresh).2 in
  let w2 := (register_task p "daily" None (with_clock 5000000 w1)).2 in
  let w' := (register_task p "daily" None (with_clock 5000000 Sample.fresh)).2 in
  (Task.next_run ∘ rt_definition) <$> tasks w1 !! (["A"; "B"; "C"], "Job") =
    Some (Some 120) ∧
  (Task.next_run ∘ rt_definition) <$> tasks w2 !! (["A"; "B"; "C"], "Job") =
    Some (Some 125) ∧
  (Task.next_run ∘ rt_definition) <$> tasks w' !! (["A"; "B"; "C"], "Job") =
    Some (Some 125).
Proof. vm_compute. by split_and!. Qed.

(** ** Resolving twice *)

(** C2.  Whenever [_get_folder] returns, on whatever service and for
    whatever path, the folder it returns is the one the path names.  When
    that folder was missing, the folders it leaves are those there were and
    the prefixes of the path; when it was there, nothing is added.  Every
    [CreateFolder] it has called was for a prefix of the path that was
    missing, made in the folder one segment up, and there are as many such
    calls as folders added: none is created twice.  A second call, on the
    service as the first left it, is answered by the first lookup: it
    returns the same folder and creates none.  The tasks are untouched. *)
Theorem C2_resolution_creates_the_missing_segments_once
    (s : string) (w : World) (f : fpath) (w1 : World) :
  _get_folder s w = (inr f, w1) →
  f = path_parts s ∧ tasks w1 = tasks w ∧
  (∀ g, g ∈ folders w1 ↔
        g ∈ folders w ∨
        (exists_in (folders w) (path_parts s) = false ∧
         g ≠ [] ∧ g `prefix_of` path_parts s)) ∧
  (∃ cs, calls w1 = calls w ++ cs ∧
     (∀ parent part, CCreateFolder parent part ∈ cs →
        (parent ++ [part] ∉ folders w) ∧
        parent ++ [part] `prefix_of` path_parts s) ∧
     length (filter is_create cs) = size (folders w1 ∖ folders w)) ∧
  _get_folder s w1 = (inr f, add_call (CSvcGetFolder s) w1).
Proof.
  intros Hg.
  destruct (get_folder_resolve s w) as (Hr & Hf & Hc & _ & _ & Ht & _).
  rewrite Hg in Hr, Hf, Hc, Ht. simpl in Hr, Hf, Hc, Ht.
  injection Hr as ->. clear Hg. split_and!; try done.
  - intros g. rewrite Hf. apply resolve_elem.
  - exists (resolve_calls (folders w) s). split_and!; [done| |].
    + intros parent part. unfold resolve_calls. rewrite segments_path_parts.
      intros [?|Hin]%elem_of_cons; [done|].
      destruct (exists_in (folders w) (path_parts s));
        [by apply elem_of_nil in Hin|].
      apply elem_of_cons in Hin as [?|Hin]; [done|].
      apply walk_creates in Hin as (Hn & k & _ & Hpre & Heq).
      split; [done|]. by rewrite Heq.
    + rewrite Hf. unfold resolve_calls, resolve. rewrite segments_path_parts.
      rewrite filter_cons_False by (simpl; auto).
      destruct (exists_in (folders w) (path_parts s)).
      * by rewrite difference_diag_L, size_empty.
      * rewrite filter_cons_False by (simpl; auto). apply walk_creates_count.
  - unfold _get_folder, try_except. rewrite Svc_GetFolder_eq, Hf.
    rewrite segments_path_parts. by rewrite resolve_reaches.
Qed.

(** C2, witness: the path A\B\C with the folders A and A\B in place. *)
Lemma C2_witness :
  let s := "\A\B\C" in
  let w := Sample.holding [["A"]; ["A"; "B"]] in
  let f := ["A"; "B"; "C"] in
  let w1 := (_get_folder s w).2 in
  f = path_parts s ∧ tasks w1 = tasks w ∧
  (∀ g, g ∈ folders w1 ↔
        g ∈ folders w ∨
        (exists_in (folders w) (path_parts s) = false ∧
         g ≠ [] ∧ g `prefix_of` path_parts s)) ∧
  (∃ cs, calls w1 = calls w ++ cs ∧
     (∀ parent part, CCreateFolder parent part ∈ cs →
        (parent ++ [part] ∉ folders w) ∧
        parent ++ [part] `prefix_of` path_parts s) ∧
     length (filter is_create cs) = size (folders w1 ∖ folders w)) ∧
  _get_folder s w1 = (inr f, add_call (CSvcGetFolder s) w1).
Proof.
  intros s w f w1.
  apply (C2_resolution_creates_the_missing_segments_once s w f w1).
  apply (run_ok (_get_folder s w) f). vm_compute. reflexivity.
Defined.

(** The nested path A\B\C with A and A\B in place: one folder is created, C
    in A\B; with no folder in place, three are, each in the one before. *)
Example nested_path_resolved :
  let r := _get_folder "\A\B\C" (Sample.holding [["A"]; ["A"; "B"]]) in
  let r0 := _get_folder "\A\B\C" Sample.fresh in
  r.1 = inr ["A"; "B"; "C"] ∧
  calls r.2 = [CSvcGetFolder "\A\B\C"; CSvcGetFolder "\"; CGetFolder [] "\A";
               CGetFolder ["A"] "\B"; CGetFolder ["A"; "B"] "\C";
               CCreateFolder ["A"; "B"] "C"] ∧
  filter is_create (calls r0.2) =
    [CCreateFolder [] "A"; CCreateFolder ["A"] "B"; CCreateFolder ["A"; "B"] "C"] ∧
  calls (_get_folder "\A\B\C" r0.2).2 = calls r0.2 ++ [CSvcGetFolder "\A\B\C"].
Proof. vm_compute. by split_and!. Qed.

(** Once [_get_folder] has returned a folder, it returns the same folder
    again and creates none. *)
Lemma get_folder_again s w f w1 f2 w2 :
  _get_folder s w = (inr f, w1) → _get_folder s w1 = (inr f2, w2) →
  f2 = f ∧ folders w2 = folders w1.
Proof.
  intros H1 H2.
  destruct (get_folder_resolve s w) as (Hr1 & Hf1 & _). rewrite H1 in Hr1, Hf1.
  destruct (get_folder_resolve s w1) as (Hr2 & Hf2 & _). rewrite H2 in Hr2, Hf2.
  simpl in *. simplify_eq. split; [done|].
  by rewrite Hf2, Hf1, resolve_again.
Qed.
(** ** The two defaults of the folder *)

Lemma parse_register_full o w ns :
  (parse_args (cl_register o) w).1 = inr ns →
  ∃ nm ex trigger lt,
    opt_name o = Some nm ∧ opt_exe o = Some ex ∧ opt_trigger o = Some trigger ∧
    trigger ∈ ["daily"; "once"; "logon"] ∧
    assoc (default "interactive" (opt_logon o)) logon_map = Some lt ∧
    ns = ns_register nm ex (default EmptyString (opt_args o))
           (default root_text (opt_folder o)) trigger (opt_at o) (opt_workdir o)
           (opt_highest o) (opt_wake o) (default "interactive" (opt_logon o))
           (opt_username o) (opt_password o).
Proof.
  simpl. unfold bind, choices, required, ret, raise.
  destruct (opt_trigger o) as [t|]; [case_bool_decide|];
    (destruct (opt_logon o) as [l|]; [try case_bool_decide as Hl|]);
    destruct (opt_name o) as [nm|], (opt_exe o) as [ex|]; simpl;
    intros Hns; simplify_eq.
  - rewrite !elem_of_cons, elem_of_nil in Hl.
    destruct Hl as [->|[->|[->|[]]]]; by repeat eexists.
  - by repeat eexists.
Qed.

(** A [register] command that returns, taken apart. *)
Lemma main_register_ok Path_of strptime o v r v' :
  main Path_of strptime (cl_register o) v = (inr r, v') →
  ∃ nm ex trigger lt,
    opt_name o = Some nm ∧ opt_exe o = Some ex ∧ opt_trigger o = Some trigger ∧
    assoc (default "interactive" (opt_logon o)) logon_map = Some lt ∧
    register_task (command_line_params Path_of o nm ex lt) trigger
                  (command_line_when strptime o) v = (inr tt, v') ∧
    r = 0.
Proof.
  unfold main. intros (ns & v1 & Hp & Hm)%bind_inr.
  pose proof (parse_args_world (cl_register o) v) as Hv.
  rewrite Hp in Hv. simpl in Hv. subst v1.
  destruct (parse_register_full o v ns)
    as (nm & ex & tr & lt & Hn & He & Ht & _ & Hl & ->);
    [by rewrite Hp|].
  exists nm, ex, tr, lt. split_and!; try done.
  - apply bind_inr in Hm as (dt & v2 & Hdt & Hm).
    rewrite Hl in Hm. unfold bind at 1, ret at 1 in Hm.
    apply bind_inr in Hm as ([] & v4 & Hreg & Hret).
    unfold ret in Hret. injection Hret as <- <-.
    unfold command_line_when, command_line_params.
    destruct (if_truthy (opt_at o) id) as [t|].
    + destruct (strptime t) as [d|]; unfold ret, raise in Hdt; by simplify_eq.
    + unfold ret in Hdt. by simplify_eq.
  - apply bind_inr in Hm as (dt & v2 & Hdt & Hm).
    rewrite Hl in Hm. unfold bind at 1, ret at 1 in Hm.
    apply bind_inr in Hm as ([] & v4 & Hreg & Hret).
    unfold ret in Hret. by injection Hret as <- <-.
Qed.








(** The command line with [--folder] left out, run. *)
Example command_line_registers_at_root :
  let r := main Sample.Path_of Sample.strptime
             (cl_register (Sample.register_options "daily"
                             (Some "2025-01-01T09:00:00"))) Sample.fresh in
  r.1 = inr 0 ∧
  (Task.next_run ∘ rt_definition) <$> tasks r.2 !! ([], "Job") =
    Some (Some 1735722000).
Proof. by vm_compute. Qed.

(** * Further properties of the module *)

(** ** Deleting and running *)

Lemma delete_task_eq nm fld w :
  delete_task nm fld w =
  bind (session fld)
       (λ f, Folder.DeleteTask f nm 0 >> logging_info (LogDeleted nm)) w.
Proof. unfold delete_task, session. by rewrite bind_assoc. Qed.

Lemma DeleteTask_eq f nm flags w :
  Folder.DeleteTask f nm flags w =
  match tasks w !! (f, nm) with
  | Some _ => (inr tt, with_tasks (delete (f, nm) (tasks w))
                         (add_call (CDeleteTask f nm flags) w))
  | None => (inl (com_error TaskNotFound), add_call (CDeleteTask f nm flags) w)
  end.
Proof.
  unfold Folder.DeleteTask, bind, record_call, get_world. simpl.
  by destruct (tasks w !! (f, nm)).
Qed.

Lemma GetTask_found f nm w rt :
  tasks w !! (f, nm) = Some rt →
  Folder.GetTask f nm w = (inr (f, nm), add_call (CGetTask f nm) w).
Proof.
  intros Hs. unfold Folder.GetTask, bind, record_call, get_world. simpl.
  by rewrite Hs.
Qed.

(** A successful deletion, taken apart. *)
Lemma delete_task_ok nm fld w w' :
  delete_task nm fld w = (inr tt, w') →
  ∃ f w1 rt,
    session fld w = (inr f, w1) ∧ tasks w !! (f, nm) = Some rt ∧
    w' = add_log (LogDeleted nm)
           (with_tasks (delete (f, nm) (tasks w1))
              (add_call (CDeleteTask f nm 0) w1)).
Proof.
  rewrite delete_task_eq. intros (f & w1 & Hs & Hd)%bind_inr.
  destruct (framed_session fld w) as (_ & _ & Ht & _).
  rewrite Hs in Ht. simpl in Ht.
  unfold bind in Hd. rewrite DeleteTask_eq in Hd.
  destruct (tasks w1 !! (f, nm)) as [rt|] eqn:Hl; [|done].
  exists f, w1, rt. rewrite <- Ht. split_and!; try done.
  unfold logging_info in Hd. by injection Hd as <-.
Qed.

(** A successful listing, taken apart. *)
Lemma list_tasks_ok fld w w' :
  list_tasks fld w = (inr tt, w') →
  ∃ f w1,
    session fld w = (inr f, w1) ∧
    w' = add_logs (task_line <$> Task.tasks_in w1 f) (add_call (CGetTasks f 0) w1).
Proof.
  rewrite list_tasks_eq. intros (f & w1 & Hs & Hl)%bind_inr.
  exists f, w1. split; [done|].
  unfold bind, Task.GetTasks, record_call, get_world, ret in Hl. simpl in Hl.
  rewrite (for_each_logging _ (add_call (CGetTasks f 0) w1)) in Hl.
  by injection Hl as <-.
Qed.

(** X1.  A successful [delete_task] removes the task of that name from the
    folder it resolved, where the task was, and touches no other task; its
    last call is [DeleteTask] with the flags 0 and it logs the deletion. *)
Theorem X1_delete_removes_the_task (nm fld : string) (w w' : World) :
  delete_task nm fld w = (inr tt, w') →
  ∃ f w1,
    session fld w = (inr f, w1) ∧
    is_Some (tasks w !! (f, nm)) ∧
    tasks w' !! (f, nm) = None ∧
    (∀ k, k ≠ (f, nm) → tasks w' !! k = tasks w !! k) ∧
    folders w' = folders w1 ∧
    last (calls w') = Some (CDeleteTask f nm 0) ∧
    logged w' = logged w ++ [LogDeleted nm].
Proof.
  intros (f & w1 & rt & Hs & Hl & ->)%delete_task_ok.
  destruct (framed_session fld w) as (_ & _ & Ht & Hlog & _).
  rewrite Hs in Ht, Hlog. simpl in Ht, Hlog.
  exists f, w1. simpl. rewrite Ht, Hlog. split_and!; try done.
  - by rewrite lookup_delete_eq.
  - intros k Hk. by rewrite lookup_delete_ne.
  - apply last_snoc.
Qed.

(** X1, witness: a job registered in the folder Jobs, then deleted. *)
Lemma X1_witness :
  let w := (register_task (Sample.job "\Jobs") "logon" None Sample.fresh).2 in
  let w' := (delete_task "Job" "\Jobs" w).2 in
  ∃ f w1,
    session "\Jobs" w = (inr f, w1) ∧
    is_Some (tasks w !! (f, "Job")) ∧
    tasks w' !! (f, "Job") = None ∧
    (∀ k, k ≠ (f, "Job") → tasks w' !! k = tasks w !! k) ∧
    folders w' = folders w1 ∧
    last (calls w') = Some (CDeleteTask f "Job" 0) ∧
    logged w' = logged w ++ [LogDeleted "Job"].
Proof.
  intros w w'. apply (X1_delete_removes_the_task "Job" "\Jobs" w w').
  apply (run_ok (delete_task "Job" "\Jobs" w) tt). vm_compute. reflexivity.
Defined.

(** X2.  [delete_task] does not catch what the service answers for a task
    that is not there: when the folder it resolved holds no task of that
    name, it fails with the error of [DeleteTask], removes nothing and logs
    nothing. *)
Theorem X2_delete_of_absent_task_fails
    (nm fld : string) (w : World) (f : fpath) (w1 : World) :
  session fld w = (inr f, w1) →
  tasks w !! (f, nm) = None →
  delete_task nm fld w =
    (inl (com_error TaskNotFound), add_call (CDeleteTask f nm 0) w1) ∧
  tasks (add_call (CDeleteTask f nm 0) w1) = tasks w ∧
  logged (add_call (CDeleteTask f nm 0) w1) = logged w.
Proof.
  intros Hs Hn. rewrite delete_task_eq. erewrite bind_ok by exact Hs.
  destruct (framed_session fld w) as (_ & _ & Ht & Hlog & _).
  rewrite Hs in Ht, Hlog. simpl in Ht, Hlog.
  unfold bind. rewrite DeleteTask_eq, Ht, Hn. by split_and!.
Qed.

(** X2, witness: deleting "Ghost" from the folder Jobs, which exists. *)
Lemma X2_witness :
  let w := Sample.holding [["Jobs"]] in
  let w1 := add_call (CSvcGetFolder "\Jobs") (add_call CConnect w) in
  delete_task "Ghost" "\Jobs" w =
    (inl (com_error TaskNotFound), add_call (CDeleteTask ["Jobs"] "Ghost" 0) w1) ∧
  tasks (add_call (CDeleteTask ["Jobs"] "Ghost" 0) w1) = tasks w ∧
  logged (add_call (CDeleteTask ["Jobs"] "Ghost" 0) w1) = logged w.
Proof.
  intros w w1.
  apply (X2_delete_of_absent_task_fails "Ghost" "\Jobs" w ["Jobs"] w1).
  - vm_compute. reflexivity.
  - vm_compute. reflexivity.
Defined.

(** X3.  [run_task] on a task that is there asks for it ([GetTask]), requests
    one run with empty parameters, logs it, and leaves the tasks of the
    service as they were: it does not wait for the run nor record it. *)
Theorem X3_run_requests_one_run
    (nm fld : string) (w : World) (f : fpath) (w1 : World) (rt : RegisteredTask) :
  session fld w = (inr f, w1) →
  tasks w !! (f, nm) = Some rt →
  ∃ w',
    run_task nm fld w = (inr tt, w') ∧
    calls w' = calls w1 ++ [CGetTask f nm; CRun f nm EmptyString] ∧
    tasks w' = tasks w ∧ folders w' = folders w1 ∧
    logged w' = logged w ++ [LogTriggered nm].
Proof.
  intros Hs Hl. rewrite run_task_eq. erewrite bind_ok by exact Hs.
  destruct (framed_session fld w) as (_ & _ & Ht & Hlog & _).
  rewrite Hs in Ht, Hlog. simpl in Ht, Hlog.
  erewrite bind_ok; [|apply (GetTask_found f nm w1 rt); by rewrite Ht].
  eexists. split; [reflexivity|]. simpl. rewrite Ht, Hlog, <- app_assoc.
  by split_and!.
Qed.

(** X3, witness: running the job registered in the folder Jobs. *)
Lemma X3_witness :
  let w := (register_task (Sample.job "\Jobs") "logon" None Sample.fresh).2 in
  let w1 := add_call (CSvcGetFolder "\Jobs") (add_call CConnect w) in
  ∃ w',
    run_task "Job" "\Jobs" w = (inr tt, w') ∧
    calls w' = calls w1 ++ [CGetTask ["Jobs"] "Job"; CRun ["Jobs"] "Job" EmptyString] ∧
    tasks w' = tasks w ∧ folders w' = folders w1 ∧
    logged w' = logged w ++ [LogTriggered "Job"].
Proof.
  intros w w1.
  apply (X3_run_requests_one_run "Job" "\Jobs" w ["Jobs"] w1
           (record_of (Sample.job "\Jobs")
              (add_logon_trigger (base_def (Sample.job "\Jobs"))))).
  - vm_compute. reflexivity.
  - vm_compute. reflexivity.
Defined.

(** ** One operation after another *)

(** A session opened after another one on the same path, with the folders as
    the first left them, resolves the same folder and creates none. *)
Lemma session_again fld w f w1 w1' f2 w2 :
  session fld w = (inr f, w1) → folders w1' = folders w1 →
  session fld w1' = (inr f2, w2) →
  f2 = f ∧ folders w2 = folders w1 ∧ tasks w2 = tasks w1'.
Proof.
  intros Hs Hf Hs2.
  destruct (framed_session fld w1') as (_ & _ & Ht & _).
  rewrite Hs2 in Ht. simpl in Ht.
  apply session_resolve in Hs as (_ & -> & Hr).
  apply session_resolve in Hs2 as (_ & -> & Hr2).
  rewrite Hf, Hr, resolve_again in Hr2. rewrite <- Hr in Hr2. by split_and!.
Qed.

(** X4.  After a successful [delete_task], a successful [list_tasks] of the
    same folder logs no line for the deleted name. *)
Theorem X4_deleted_task_is_not_listed (nm fld : string) (w w1 w2 : World) :
  delete_task nm fld w = (inr tt, w1) →
  list_tasks fld w1 = (inr tt, w2) →
  ∃ lines,
    logged w2 = logged w1 ++ lines ∧
    ∀ st nr path, LogTask nm st nr path ∉ lines.
Proof.
  intros (f & w1s & rt & Hs & Hl & Hw1)%delete_task_ok
         (f2 & w2s & Hs2 & ->)%list_tasks_ok.
  assert (folders w1 = folders w1s) as Hf by (by subst w1).
  destruct (session_again _ _ _ _ _ _ _ Hs Hf Hs2) as (-> & _ & Ht).
  destruct (framed_session fld w1) as (_ & _ & _ & Hlog & _).
  rewrite Hs2 in Hlog. simpl in Hlog.
  eexists. split; [simpl; by rewrite Hlog|].
  intros st nr path (rt' & Hin & _)%tasks_in_lookup.
  rewrite Ht in Hin. subst w1. simpl in Hin. by rewrite lookup_delete_eq in Hin.
Qed.

(** X4, witness: register, delete, list in the folder Jobs. *)
Lemma X4_witness :
  let w := (register_task (Sample.job "\Jobs") "logon" None Sample.fresh).2 in
  let w1 := (delete_task "Job" "\Jobs" w).2 in
  let w2 := (list_tasks "\Jobs" w1).2 in
  ∃ lines,
    logged w2 = logged w1 ++ lines ∧
    ∀ st nr path, LogTask "Job" st nr path ∉ lines.
Proof.
  intros w w1 w2. apply (X4_deleted_task_is_not_listed "Job" "\Jobs" w w1 w2).
  - apply (run_ok (delete_task "Job" "\Jobs" w) tt). vm_compute. reflexivity.
  - apply (run_ok (list_tasks "\Jobs" w1) tt). vm_compute. reflexivity.
Defined.

(** X5.  After a successful [delete_task], [run_task] of the same name in
    the same folder fails and requests no run; when its own folder
    resolution succeeds, the failure is the not-found error of [GetTask]. *)
Theorem X5_run_after_delete_fails (nm fld : string) (w w1 : World) :
  delete_task nm fld w = (inr tt, w1) →
  ∃ e w2 cs,
    run_task nm fld w1 = (inl e, w2) ∧
    calls w2 = calls w1 ++ cs ∧
    forallb (λ c, negb (is_run c)) cs = true ∧
    (∀ f ws, session fld w1 = (inr f, ws) → e = com_error TaskNotFound).
Proof.
  intros (f & w1s & rt & Hs & Hl & Hw1)%delete_task_ok.
  rewrite run_task_eq.
  destruct (framed_session fld w1) as (_ & _ & _ & _ & _ & cs & Hcs & Hall).
  destruct (session fld w1) as [[e|f2] ws] eqn:Hs2; simpl in Hcs.
  - exists e, ws, cs. erewrite bind_fail by exact Hs2.
    split_and!; try done. by apply lookup_not_run.
  - assert (folders w1 = folders w1s) as Hf by (by subst w1).
    destruct (session_again _ _ _ _ _ _ _ Hs Hf Hs2) as (-> & _ & Ht).
    assert (tasks ws !! (f, nm) = None) as Hn.
    { rewrite Ht. subst w1. simpl. by rewrite lookup_delete_eq. }
    exists (com_error TaskNotFound), (add_call (CGetTask f nm) ws),
           (cs ++ [CGetTask f nm]).
    erewrite bind_ok by exact Hs2.
    erewrite bind_fail by (by apply GetTask_missing).
    split_and!; try done.
    + simpl. by rewrite Hcs, <- app_assoc.
    + by rewrite forallb_app, lookup_not_run.
Qed.

(** X5, witness: register, delete, run in the folder Jobs. *)
Lemma X5_witness :
  let w := (register_task (Sample.job "\Jobs") "logon" None Sample.fresh).2 in
  let w1 := (delete_task "Job" "\Jobs" w).2 in
  ∃ e w2 cs,
    run_task "Job" "\Jobs" w1 = (inl e, w2) ∧
    calls w2 = calls w1 ++ cs ∧
    forallb (λ c, negb (is_run c)) cs = true ∧
    (∀ f ws, session "\Jobs" w1 = (inr f, ws) → e = com_error TaskNotFound).
Proof.
  intros w w1. apply (X5_run_after_delete_fails "Job" "\Jobs" w w1).
  apply (run_ok (delete_task "Job" "\Jobs" w) tt). vm_compute. reflexivity.
Defined.

(** X6.  After a successful [register_task], a [run_task] of that name in
    that folder whose folder resolution succeeds finds the task where it was
    registered and requests its run. *)
Theorem X6_run_after_register
    (params : TaskParams) (trigger : string) (when : option datetime)
    (w w1 : World) (f2 : fpath) (ws : World) :
  register_task params trigger when w = (inr tt, w1) →
  session (folder params) w1 = (inr f2, ws) →
  ∃ w2,
    run_task (name params) (folder params) w1 = (inr tt, w2) ∧
    is_Some (tasks w1 !! (f2, name params)) ∧
    last (calls w2) = Some (CRun f2 (name params) EmptyString) ∧
    tasks w2 = tasks w1.
Proof.
  intros (f & w1s & td & Hs & Ha & Hw1)%register_task_ok Hs2.
  assert (folders w1 = folders w1s) as Hf by (by subst w1).
  destruct (session_again _ _ _ _ _ _ _ Hs Hf Hs2) as (-> & _ & Ht).
  assert (tasks w1 !! (f, name params) = Some (record_of params td)) as Hl.
  { subst w1. simpl. by rewrite lookup_insert_eq. }
  rewrite run_task_eq. erewrite bind_ok by exact Hs2.
  erewrite bind_ok; [|apply (GetTask_found _ _ _ (record_of params td)); by rewrite Ht].
  eexists. split; [reflexivity|]. simpl. split_and!; try done.
  apply last_snoc.
Qed.

(** X6, witness: register, then run, in the folder Jobs. *)
Lemma X6_witness :
  let w1 := (register_task (Sample.job "\Jobs") "logon" None Sample.fresh).2 in
  let ws := add_call (CSvcGetFolder "\Jobs") (add_call CConnect w1) in
  ∃ w2,
    run_task "Job" "\Jobs" w1 = (inr tt, w2) ∧
    is_Some (tasks w1 !! (["Jobs"], "Job")) ∧
    last (calls w2) = Some (CRun ["Jobs"] "Job" EmptyString) ∧
    tasks w2 = tasks w1.
Proof.
  intros w1 ws.
  apply (X6_run_after_register (Sample.job "\Jobs") "logon" None Sample.fresh
           w1 ["Jobs"] ws).
  - apply (run_ok (register_task (Sample.job "\Jobs") "logon" None Sample.fresh) tt).
    vm_compute. reflexivity.
  - vm_compute. reflexivity.
Defined.

(** X7.  After a successful [register_task], a successful [list_tasks] of
    that folder logs a line for the task, under its name and with its path
    in the folder that [params.folder] names; every line that bears the name
    is that line.  State and next run are what the service shows. *)
Theorem X7_registered_task_is_listed
    (params : TaskParams) (trigger : string) (when : option datetime)
    (w w1 w2 : World) :
  register_task params trigger when w = (inr tt, w1) →
  list_tasks (folder params) w1 = (inr tt, w2) →
  ∃ lines st nr,
    logged w2 = logged w1 ++ lines ∧
    LogTask (name params) st nr
            (Task.path_text (path_parts (folder params)) (name params)) ∈ lines ∧
    ∀ st' nr' path,
      LogTask (name params) st' nr' path ∈ lines →
      st' = st ∧ nr' = nr ∧
      path = Task.path_text (path_parts (folder params)) (name params).
Proof.
  intros (f & w1s & td & Hs & Ha & Hw1)%register_task_ok
         (f2 & w2s & Hs2 & ->)%list_tasks_ok.
  assert (folders w1 = folders w1s) as Hf by (by subst w1).
  destruct (session_again _ _ _ _ _ _ _ Hs Hf Hs2) as (-> & _ & Ht).
  apply session_resolve in Hs as (_ & -> & _).
  destruct (framed_session (folder params) w1) as (_ & _ & _ & Hlog & _).
  rewrite Hs2 in Hlog. simpl in Hlog.
  assert (tasks w2s !! (path_parts (folder params), name params) =
          Some (record_of params td)) as Hrec.
  { rewrite Ht. subst w1. simpl. by rewrite lookup_insert_eq. }
  eexists _, (rt_state (record_of params td)),
    (Task.next_run (rt_definition (record_of params td))).
  split; [simpl; by rewrite Hlog|]. split.
  - apply tasks_in_lookup. by exists (record_of params td).
  - intros st' nr' path (rt & Hin & -> & -> & ->)%tasks_in_lookup.
    pose proof (eq_trans (eq_sym Hin) Hrec) as [= ->]. done.
Qed.

(** X7, witness: a daily job for a day of 2025, registered and listed. *)
Lemma X7_witness :
  let p := Sample.job "\Jobs" in
  let w1 := (register_task p "daily" (Some 1735722000000000) Sample.fresh).2 in
  let w2 := (list_tasks "\Jobs" w1).2 in
  ∃ lines st nr,
    logged w2 = logged w1 ++ lines ∧
    LogTask (name p) st nr (Task.path_text (path_parts (folder p)) (name p)) ∈ lines ∧
    ∀ st' nr' path,
      LogTask (name p) st' nr' path ∈ lines →
      st' = st ∧ nr' = nr ∧
      path = Task.path_text (path_parts (folder p)) (name p).
Proof.
  intros p w1 w2.
  apply (X7_registered_task_is_listed p "daily" (Some 1735722000000000)
           Sample.fresh w1 w2).
  - apply (run_ok (register_task p "daily" (Some 1735722000000000) Sample.fresh) tt).
    vm_compute. reflexivity.
  - apply (run_ok (list_tasks "\Jobs" w1) tt). vm_compute. reflexivity.
Defined.

(** ** Connection and folder resolution *)

Lemma run_is {A} (r : (exn + A) * World) (x : exn + A) :
  r.1 = x → r = (x, r.2).
Proof. destruct r as [y w]. simpl. by intros ->. Qed.

Lemma session_offline fld w :
  online w = false →
  session fld w = (inl (com_error Unreachable), add_call CConnect w).
Proof. intros Ho. unfold session, _connect, bind. by rewrite Connect_eq, Ho. Qed.

(** X8.  No operation catches a failure of the connection: against a service
    that cannot be reached, [register_task], [run_task], [delete_task] and
    [list_tasks] all fail with the error of [Connect], after that one call. *)
Theorem X8_unreachable_service_fails_every_operation
    (params : TaskParams) (trigger : string) (when : option datetime)
    (nm fld : string) (w : World) :
  online w = false →
  register_task params trigger when w =
    (inl (com_error Unreachable), add_call CConnect w) ∧
  run_task nm fld w = (inl (com_error Unreachable), add_call CConnect w) ∧
  delete_task nm fld w = (inl (com_error Unreachable), add_call CConnect w) ∧
  list_tasks fld w = (inl (com_error Unreachable), add_call CConnect w).
Proof.
  intros Ho. rewrite register_task_eq, run_task_eq, delete_task_eq, list_tasks_eq.
  split_and!; by erewrite bind_fail by (by apply session_offline).
Qed.

(** X8, witness: the fresh service, switched off. *)
Lemma X8_witness :
  let w := mkWorld false 0 ∅ ∅ [] [] in
  register_task (Sample.job "\Jobs") "daily" None w =
    (inl (com_error Unreachable), add_call CConnect w) ∧
  run_task "Job" "\Jobs" w = (inl (com_error Unreachable), add_call CConnect w) ∧
  delete_task "Job" "\Jobs" w = (inl (com_error Unreachable), add_call CConnect w) ∧
  list_tasks "\Jobs" w = (inl (com_error Unreachable), add_call CConnect w).
Proof.
  intros w.
  apply (X8_unreachable_service_fails_every_operation
           (Sample.job "\Jobs") "daily" None "Job" "\Jobs" w).
  reflexivity.
Defined.

(** A session on a path of one segment, worked out. *)
Lemma session_single s p w :
  online w = true → path_parts s = [p] →
  session s w =
  if exists_in (folders w) [p]
  then (inr [p], add_call (CSvcGetFolder s) (add_call CConnect w))
  else (inr [p],
        with_folders ({[ [p] ]} ∪ folders w)
          (add_call (CCreateFolder [] p)
             (add_call (CGetFolder [] (String PyStr.backslash p))
                (add_call (CSvcGetFolder root_text)
                   (add_call (CSvcGetFolder s) (add_call CConnect w)))))).
Proof.
  intros Ho Hp. pose proof (path_parts_segments s) as Hseg.
  rewrite Hp in Hseg. apply Forall_cons in Hseg as [Hseg _].
  unfold session, _connect, bind. rewrite Connect_eq, Ho.
  unfold _get_folder, try_except. rewrite Svc_GetFolder_eq.
  rewrite segments_path_parts, Hp. simpl.
  destruct (exists_in (folders w) [p]) eqn:He; [done|].
  unfold bind. rewrite Svc_GetFolder_eq. simpl. unfold bind.
  rewrite loop_step by done. simpl. by rewrite He.
Qed.

(** X10.  A path of one segment always resolves on a reachable service, to
    the folder of that name under the root, and afterwards the folders are
    those there were plus that one: [CreateFolder] is called when the folder
    is missing and only then. *)
Theorem X10_single_segment_resolves (s p : string) (w : World) :
  online w = true → path_parts s = [p] →
  ∃ w1 cs,
    session s w = (inr [p], w1) ∧
    folders w1 = {[ [p] ]} ∪ folders w ∧
    tasks w1 = tasks w ∧
    calls w1 = calls w ++ cs ∧
    (CCreateFolder [] p ∈ cs ↔ [p] ∉ folders w).
Proof.
  intros Ho Hp. rewrite (session_single s p w Ho Hp).
  destruct (exists_in (folders w) [p]) eqn:He.
  - apply bool_decide_eq_true in He as [|He]; [done|].
    exists (add_call (CSvcGetFolder s) (add_call CConnect w)),
           [CConnect; CSvcGetFolder s].
    simpl. split_and!; try done.
    + set_solver.
    + by rewrite <- app_assoc.
    + split; [|done]. rewrite !elem_of_cons, elem_of_nil. naive_solver.
  - apply bool_decide_eq_false in He.
    eexists. exists [CConnect; CSvcGetFolder s; CSvcGetFolder root_text;
                     CGetFolder [] (String PyStr.backslash p); CCreateFolder [] p].
    split; [done|]. simpl. split_and!; try done.
    + by rewrite <- !app_assoc.
    + split; [intros _ Hin; apply He; by right|]. intros _.
      rewrite !elem_of_cons. naive_solver.
Qed.

(** X10, witness: the folder Jobs on a fresh service. *)
Lemma X10_witness :
  ∃ w1 cs,
    session "\Jobs" Sample.fresh = (inr ["Jobs"], w1) ∧
    folders w1 = {[ ["Jobs"] ]} ∪ folders Sample.fresh ∧
    tasks w1 = tasks Sample.fresh ∧
    calls w1 = calls Sample.fresh ++ cs ∧
    (CCreateFolder [] "Jobs" ∈ cs ↔ ["Jobs"] ∉ folders Sample.fresh).
Proof.
  apply (X10_single_segment_resolves "\Jobs" "Jobs" Sample.fresh).
  - reflexivity.
  - vm_compute. reflexivity.
Defined.

(** X11.  The operations that only read create folders too: on a reachable
    service, [list_tasks] of a one-segment folder that does not exist
    creates the folder and then lists what the service holds for it. *)
Theorem X11_listing_creates_a_missing_folder (fld p : string) (w : World) :
  online w = true → path_parts fld = [p] → [p] ∉ folders w →
  ∃ w',
    list_tasks fld w = (inr tt, w') ∧
    [p] ∈ folders w' ∧
    CCreateFolder [] p ∈ calls w' ∧
    logged w' = logged w ++ (task_line <$> Task.tasks_in w [p]).
Proof.
  intros Ho Hp Hn. rewrite list_tasks_eq.
  pose proof (session_single fld p w Ho Hp) as Hs. unfold exists_in in Hs.
  rewrite bool_decide_eq_false_2 in Hs by (intros [|]; done).
  erewrite bind_ok by exact Hs.
  unfold bind, Task.GetTasks, record_call, get_world, ret. simpl.
  eexists. split; [apply for_each_logging|]. simpl. split_and!.
  - set_solver.
  - rewrite !elem_of_app, !elem_of_cons. naive_solver.
  - done.
Qed.

(** X11, witness: listing the folder Ghost of a fresh service. *)
Lemma X11_witness :
  ∃ w',
    list_tasks "\Ghost" Sample.fresh = (inr tt, w') ∧
    ["Ghost"] ∈ folders w' ∧
    CCreateFolder [] "Ghost" ∈ calls w' ∧
    logged w' = logged Sample.fresh ++ (task_line <$> Task.tasks_in Sample.fresh ["Ghost"]).
Proof.
  apply (X11_listing_creates_a_missing_folder "\Ghost" "Ghost" Sample.fresh).
  - reflexivity.
  - vm_compute. reflexivity.
  - apply not_elem_of_empty.
Defined.

(** ** The command line *)

Lemma parse_usage_error cl w :
  usage_error cl → parse_args cl w = (inl (SystemExit 2), w).
Proof.
  destruct cl as [o|nm fld|nm fld|fld|]; simpl; try done.
  - unfold bind, choices, required, ret, raise.
    intros [(t & -> & Ht)|[(l & -> & Hl)|[Hn|[Hn|Hn]]]].
    + by rewrite bool_decide_eq_false_2.
    + destruct (opt_trigger o) as [t|]; [case_bool_decide|];
        by rewrite ?bool_decide_eq_false_2.
    + rewrite Hn. destruct (opt_trigger o) as [t|]; [case_bool_decide|];
        (destruct (opt_logon o) as [l|]; [try case_bool_decide|]); done.
    + rewrite Hn. destruct (opt_trigger o) as [t|]; [case_bool_decide|];
        (destruct (opt_logon o) as [l|]; [try case_bool_decide|]);
        by destruct (opt_name o).
    + rewrite Hn. destruct (opt_logon o) as [l|]; [try case_bool_decide|];
        by destruct (opt_name o), (opt_exe o).
  - by intros ->.
  - by intros ->.
Qed.

(** X12.  A command line that argparse refuses never reaches the service:
    [main] leaves through [SystemExit(2)] with the world as it was.  This
    is how a trigger kind outside daily, once and logon is turned down on
    the command line. *)
Theorem X12_usage_errors_reach_no_service
    (Path_of : string → PyPath) (strptime : string → option datetime)
    (cl : CommandLine) (w : World) :
  usage_error cl →
  main Path_of strptime cl w = (inl (SystemExit 2), w).
Proof.
  intros Hu. unfold main. by erewrite bind_fail by (by apply parse_usage_error).
Qed.

(** X12, witness: [register] with the trigger kind "weekly". *)
Lemma X12_witness :
  main Sample.Path_of Sample.strptime
       (cl_register (Sample.register_options "weekly" None)) Sample.fresh =
    (inl (SystemExit 2), Sample.fresh).
Proof.
  apply (X12_usage_errors_reach_no_service Sample.Path_of Sample.strptime
           (cl_register (Sample.register_options "weekly" None)) Sample.fresh).
  left. exists "weekly". split; [reflexivity|].
  rewrite !elem_of_cons, elem_of_nil. by intros [|[|[|]]].
Defined.

(** X13.  What a [register] command that returns has registered: the task is
    stored under the name given, with the run level 1 exactly when
    [--highest] is given (the dataclass would default to highest), waking
    the machine exactly when [--wake] is given, always set to start when
    available, with the logon type [logon_map] gives for [--logon]
    (interactive when left out), the arguments of [--args] and the user
    name of [--username], empty when left out. *)
Theorem X13_command_line_options_reach_the_record
    (Path_of : string → PyPath) (strptime : string → option datetime)
    (o : RegisterOptions) (v v' : World) :
  main Path_of strptime (cl_register o) v = (inr 0, v') →
  ∃ nm f rt ac,
    opt_name o = Some nm ∧
    tasks v' !! (f, nm) = Some rt ∧
    RunLevel (rt_definition rt) = (if opt_highest o then 1 else 0) ∧
    WakeToRun (Settings_ (rt_definition rt)) = opt_wake o ∧
    StartWhenAvailable (Settings_ (rt_definition rt)) = true ∧
    assoc (default "interactive" (opt_logon o)) logon_map = Some (rt_logon_type rt) ∧
    rt_user_id rt = PyStr.or_else (opt_username o) EmptyString ∧
    Actions (rt_definition rt) = [ac] ∧
    Arguments ac = default EmptyString (opt_args o).
Proof.
  intros (nm & ex & tr & lt & Hn & He & Ht & Hl & Hreg & _)%main_register_ok.
  apply register_task_ok in Hreg as (f & w1 & td & Hs & Ha & ->).
  destruct (attached_shape _ _ _ _ _ Ha) as (_ & Hset & Hrun & Hact & _).
  exists nm, f, (record_of (command_line_params Path_of o nm ex lt) td).
  eexists. simpl. rewrite lookup_insert_eq, Hset, Hrun, Hact.
  by split_and!.
Qed.

(** X13, witness: a daily job registered from the command line. *)
Lemma X13_witness :
  let o := Sample.register_options "daily" (Some "2025-01-01T09:00:00") in
  let v' := (main Sample.Path_of Sample.strptime (cl_register o) Sample.fresh).2 in
  ∃ nm f rt ac,
    opt_name o = Some nm ∧
    tasks v' !! (f, nm) = Some rt ∧
    RunLevel (rt_definition rt) = (if opt_highest o then 1 else 0) ∧
    WakeToRun (Settings_ (rt_definition rt)) = opt_wake o ∧
    StartWhenAvailable (Settings_ (rt_definition rt)) = true ∧
    assoc (default "interactive" (opt_logon o)) logon_map = Some (rt_logon_type rt) ∧
    rt_user_id rt = PyStr.or_else (opt_username o) EmptyString ∧
    Actions (rt_definition rt) = [ac] ∧
    Arguments ac = default EmptyString (opt_args o).
Proof.
  intros o v'.
  apply (X13_command_line_options_reach_the_record Sample.Path_of Sample.strptime
           o Sample.fresh v').
  apply (run_ok (main Sample.Path_of Sample.strptime (cl_register o) Sample.fresh) 0).
  vm_compute. reflexivity.
Defined.

(** ** Which errors come out *)

Lemma get_folder_total s w e w' : _get_folder s w ≠ (inl e, w').
Proof.
  intros Hg. destruct (get_folder_resolve s w) as [Hr _].
  by rewrite Hg in Hr.
Qed.

Lemma session_error fld w e w' :
  session fld w = (inl e, w') → ∃ h, e = com_error h.
Proof.
  unfold session, _connect, bind. rewrite Connect_eq.
  destruct (online w).
  - by intros Hg%get_folder_total.
  - intros [= <- _]. eauto.
Qed.

Lemma register_task_error params trigger when w e w' :
  trigger ∈ ["daily"; "once"; "logon"] →
  register_task params trigger when w = (inl e, w') → ∃ h, e = com_error h.
Proof.
  intros Hk. rewrite register_task_eq. unfold bind at 1.
  destruct (session (folder params) w) as [[e1|f] w1] eqn:Hs.
  - intros [= <- _]. by eapply session_error.
  - rewrite submit_eq. unfold attached.
    rewrite !elem_of_cons, elem_of_nil in Hk. destruct Hk as [->|[->|[->|[]]]]; done.
Qed.

Lemma run_task_error nm fld w e w' :
  run_task nm fld w = (inl e, w') → ∃ h, e = com_error h.
Proof.
  rewrite run_task_eq. unfold bind at 1.
  destruct (session fld w) as [[e1|f] w1] eqn:Hs.
  - intros [= <- _]. by eapply session_error.
  - unfold bind, Folder.GetTask, bind, record_call, get_world, ret, raise. simpl.
    destruct (tasks w1 !! (f, nm)); [done|]. intros [= <- _]. eauto.
Qed.

Lemma delete_task_error nm fld w e w' :
  delete_task nm fld w = (inl e, w') → ∃ h, e = com_error h.
Proof.
  rewrite delete_task_eq. unfold bind at 1.
  destruct (session fld w) as [[e1|f] w1] eqn:Hs.
  - intros [= <- _]. by eapply session_error.
  - unfold bind. rewrite DeleteTask_eq.
    destruct (tasks w1 !! (f, nm)); [done|]. intros [= <- _]. eauto.
Qed.

Lemma list_tasks_error fld w e w' :
  list_tasks fld w = (inl e, w') → ∃ h, e = com_error h.
Proof.
  rewrite list_tasks_eq. unfold bind at 1.
  destruct (session fld w) as [[e1|f] w1] eqn:Hs.
  - intros [= <- _]. by eapply session_error.
  - unfold bind, Task.GetTasks, record_call, get_world, ret. simpl.
    by rewrite (for_each_logging _ (add_call (CGetTasks f 0) w1)).
Qed.

Lemma parse_args_error cl w e w' :
  parse_args cl w = (inl e, w') → e = SystemExit 2 ∧ w' = w.
Proof.
  destruct cl as [o|nm fld|nm fld|fld|]; simpl.
  - unfold bind, choices, required, ret, raise.
    destruct (opt_trigger o) as [t|]; [case_bool_decide|];
      (destruct (opt_logon o) as [l|]; [try case_bool_decide|]);
      destruct (opt_name o), (opt_exe o); simpl; intros Hp; by simplify_eq.
  - unfold bind, required, ret, raise. destruct nm; intros Hp; by simplify_eq.
  - unfold bind, required, ret, raise. destruct nm; intros Hp; by simplify_eq.
  - done.
  - unfold raise. intros Hp. by simplify_eq.
Qed.

(** X14.  The failures of [main].  It fails through [SystemExit(2)] (a
    command line argparse refuses) or through the [ValueError] of
    [strptime], both with the world untouched, or else with an error of the
    service; it never fails on the lookup in [logon_map] nor on the trigger
    kind, which argparse has checked. *)
Theorem X14_failures_of_main
    (Path_of : string → PyPath) (strptime : string → option datetime)
    (cl : CommandLine) (w : World) (e : exn) (w' : World) :
  main Path_of strptime cl w = (inl e, w') →
  (e = SystemExit 2 ∧ w' = w) ∨ (e = ValueError time_error ∧ w' = w) ∨
  ∃ h, e = com_error h.
Proof.
  unfold main, bind at 1.
  destruct (parse_args cl w) as [[e0|ns] w0] eqn:Hp.
  - intros [= <- <-]. left. by eapply parse_args_error.
  - pose proof (parse_args_world cl w) as Hw. rewrite Hp in Hw. simpl in Hw.
    subst w0. destruct cl as [o|nm fld|nm fld|fld|].
    + destruct (parse_register_full o w ns)
        as (nm & ex & tr & lt & Hn & He & Ht & Hk & Hl & ->); [by rewrite Hp|].
      rewrite Hl. unfold bind at 1.
      destruct (if_truthy (opt_at o) id) as [t|].
      * destruct (strptime t) as [d|]; unfold ret, raise.
        -- unfold bind at 1. unfold bind.
           destruct (register_task _ tr (Some d) w) as [[e1|[]] w1] eqn:Hr; [|done].
           intros [= <- <-]. right. right. by eapply register_task_error.
        -- intros [= <- <-]. right. by left.
      * unfold ret, bind at 1. unfold bind.
        destruct (register_task _ tr None w) as [[e1|[]] w1] eqn:Hr; [|done].
        intros [= <- <-]. right. right. by eapply register_task_error.
    + simpl in Hp. destruct nm as [nm|]; [|done]. injection Hp as <-.
      unfold bind. destruct (run_task _ _ w) as [[e1|[]] w1] eqn:Hr; [|done].
      intros [= <- <-]. right. right. by eapply run_task_error.
    + simpl in Hp. destruct nm as [nm|]; [|done]. injection Hp as <-.
      unfold bind. destruct (delete_task _ _ w) as [[e1|[]] w1] eqn:Hr; [|done].
      intros [= <- <-]. right. right. by eapply delete_task_error.
    + simpl in Hp. injection Hp as <-.
      unfold bind. destruct (list_tasks _ w) as [[e1|[]] w1] eqn:Hr; [|done].
      intros [= <- <-]. right. right. by eapply list_tasks_error.
    + done.
Qed.

(** X14, witness: running a task that is not there, from the command line. *)
Lemma X14_witness :
  let r := main Sample.Path_of Sample.strptime (cl_run (Some "Ghost") None)
                Sample.fresh in
  r.1 = inl (com_error TaskNotFound) ∧
  ((com_error TaskNotFound = SystemExit 2 ∧ r.2 = Sample.fresh) ∨
   (com_error TaskNotFound = ValueError time_error ∧ r.2 = Sample.fresh) ∨
   ∃ h, com_error TaskNotFound = com_error h).
Proof.
  intros r. split; [vm_compute; reflexivity|].
  apply (X14_failures_of_main Sample.Path_of Sample.strptime
           (cl_run (Some "Ghost") None) Sample.fresh (com_error TaskNotFound) r.2).
  apply (run_is r). vm_compute. reflexivity.
Defined.

(** ** What [register_task] checks, and what it leaves alone *)

(** X15.  With the trigger kind logon, [when] is ignored: [register_task]
    does the same whatever [when] is, and on success the registered
    definition has the logon trigger as its single trigger, with no start
    boundary, so that no next run is announced. *)
Theorem X15_logon_trigger_ignores_when
    (params : TaskParams) (when : option datetime) (w : World) :
  register_task params "logon" when w = register_task params "logon" None w ∧
  ∀ w', register_task params "logon" when w = (inr tt, w') →
    ∃ f rt,
      tasks w' !! (f, name params) = Some rt ∧
      Triggers (rt_definition rt) =
        [ {| TriggerType := TASK_TRIGGER_LOGON; DaysInterval := None;
             StartBoundary := None |} ] ∧
      Task.next_run (rt_definition rt) = None.
Proof.
  split.
  - rewrite !register_task_eq. unfold bind.
    destruct (session (folder params) w) as [[e|f] w1]; [done|].
    by rewrite !submit_eq.
  - intros w' (f & w1 & td & Hs & Ha & ->)%register_task_ok.
    injection Ha as <-. exists f, (record_of params (add_logon_trigger (base_def params))).
    simpl. by rewrite lookup_insert_eq.
Qed.

(** X16.  [register_task] checks nothing but the trigger kind: once the
    connection is open and the folder resolved, it succeeds for every
    supported trigger kind, whatever the name, the executable and the
    timestamp (an empty name, a past timestamp), and it changes no task but
    the one keyed by that folder and that name. *)
Theorem X16_register_checks_only_the_trigger_kind
    (params : TaskParams) (trigger : string) (when : option datetime)
    (w : World) (f : fpath) (w1 : World) :
  session (folder params) w = (inr f, w1) →
  trigger ∈ ["daily"; "once"; "logon"] →
  ∃ td w',
    register_task params trigger when w = (inr tt, w') ∧
    tasks w' !! (f, name params) = Some (record_of params td) ∧
    (∀ k, k ≠ (f, name params) → tasks w' !! k = tasks w !! k) ∧
    folders w' = folders w1.
Proof.
  intros Hs Hk.
  destruct (framed_session (folder params) w) as (_ & _ & Ht & _).
  rewrite Hs in Ht. simpl in Ht.
  assert (∃ td, attached (base_def params) trigger when (clock w) = Some td)
    as [td Ha].
  { unfold attached. rewrite !elem_of_cons, elem_of_nil in Hk.
    destruct Hk as [->|[->|[->|[]]]]; simpl; eauto. }
  exists td, (registered params td f w1).
  split; [by apply register_task_run|]. simpl.
  rewrite lookup_insert_eq. split_and!; try done.
  intros k Hne. by rewrite lookup_insert_ne, Ht.
Qed.

(** X16, witness: an empty name, the empty path as executable, and a
    timestamp before the clock. *)
Lemma X16_witness :
  let p := TaskParams_defaults EmptyString Sample.empty_path in
  let w := with_clock 1735722000000000 (Sample.holding [default_folder_segments]) in
  let w1 := add_call (CSvcGetFolder TaskParams_folder_default) (add_call CConnect w) in
  ∃ td w',
    register_task p "once" (Some 5000000) w = (inr tt, w') ∧
    tasks w' !! (default_folder_segments, EmptyString) = Some (record_of p td) ∧
    (∀ k, k ≠ (default_folder_segments, EmptyString) →
          tasks w' !! k = tasks w !! k) ∧
    folders w' = folders w1.
Proof.
  intros p w w1.
  apply (X16_register_checks_only_the_trigger_kind p "once" (Some 5000000) w
           default_folder_segments w1).
  - vm_compute. reflexivity.
  - right. by left.
Defined.

(** ** What no operation does *)

Lemma keeps_ret {A} (a : A) : keeps (ret a).
Proof. by intros w. Qed.

Lemma keeps_raise {A} e : keeps (@raise A e).
Proof. by intros w. Qed.

Lemma keeps_bind {A B} (m : M A) (k : A → M B) :
  keeps m → (∀ a, keeps (k a)) → keeps (bind m k).
Proof.
  intros Hm Hk w. unfold bind. specialize (Hm w).
  destruct (m w) as [[e|a] w1]; simpl in *; [done|].
  destruct (Hk a w1) as (Hf & Ho & Hc), Hm as (Hf' & Ho' & Hc').
  split_and!; [set_solver|congruence|congruence].
Qed.

Lemma keeps_framed {A} (m : M A) : framed m → keeps m.
Proof. intros Hm w. destruct (Hm w) as (Ho & Hc & _ & _ & Hf & _). done. Qed.

Lemma keeps_record_call c : keeps (record_call c).
Proof. by intros w. Qed.

Lemma keeps_logging_info r : keeps (logging_info r).
Proof. by intros w. Qed.

Lemma keeps_for_each {A} (l : list A) (body : A → M unit) :
  (∀ a, keeps (body a)) → keeps (for_each l body).
Proof.
  intros Hb. induction l as [|a l IH]; simpl; [apply keeps_ret|].
  apply keeps_bind; [apply Hb|]. by intros _.
Qed.

Lemma keeps_session fld : keeps (session fld).
Proof. apply keeps_framed, framed_session. Qed.

Lemma keeps_register_task params trigger when :
  keeps (register_task params trigger when).
Proof.
  intros w. rewrite register_task_eq. revert w.
  apply keeps_bind; [apply keeps_session|]. intros f w. rewrite submit_eq.
  by destruct (attached _ _ _ _).
Qed.

Lemma keeps_run_task nm fld : keeps (run_task nm fld).
Proof.
  intros w. rewrite run_task_eq. revert w.
  apply keeps_bind; [apply keeps_session|]. intros f.
  apply keeps_bind.
  - intros w. unfold Folder.GetTask, bind, record_call, get_world. simpl.
    by destruct (tasks w !! (f, nm)).
  - intros t. apply keeps_bind; [apply keeps_record_call|].
    intros _. apply keeps_logging_info.
Qed.

Lemma keeps_delete_task nm fld : keeps (delete_task nm fld).
Proof.
  intros w. rewrite delete_task_eq. revert w.
  apply keeps_bind; [apply keeps_session|]. intros f.
  apply keeps_bind; [|intros _; apply keeps_logging_info].
  intros w. rewrite DeleteTask_eq. by destruct (tasks w !! (f, nm)).
Qed.

Lemma keeps_list_tasks fld : keeps (list_tasks fld).
Proof.
  intros w. rewrite list_tasks_eq. revert w.
  apply keeps_bind; [apply keeps_session|]. intros f.
  apply keeps_bind; [by intros w|].
  intros ts. apply keeps_for_each. intros t. apply keeps_logging_info.
Qed.

(** X17.  No command removes a folder: after [main], whatever the command
    and whether it fails or not, every folder the service held is still
    there; folders are only ever added, by the resolution of a path. *)
Theorem X17_no_command_removes_a_folder
    (Path_of : string → PyPath) (strptime : string → option datetime)
    (cl : CommandLine) (w : World) :
  folders w ⊆ folders (main Path_of strptime cl w).2.
Proof.
  assert (keeps (main Path_of strptime cl)) as Hk; [|apply Hk].
  unfold main. apply keeps_bind.
  - intros v. by rewrite parse_args_world.
  - intros [nm ex args fld tr at_ wd hi wk lg us pw|nm fld|nm fld|fld].
    + apply keeps_bind.
      { destruct (if_truthy at_ id) as [t|]; [destruct (strptime t)|];
          (apply keeps_ret || apply keeps_raise). }
      intros dt. apply keeps_bind.
      { destruct (assoc lg logon_map); (apply keeps_ret || apply keeps_raise). }
      intros lt. apply keeps_bind; [apply keeps_register_task|].
      intros _. apply keeps_ret.
    + apply keeps_bind; [apply keeps_run_task|]. intros _. apply keeps_ret.
    + apply keeps_bind; [apply keeps_delete_task|]. intros _. apply keeps_ret.
    + apply keeps_bind; [apply keeps_list_tasks|]. intros _. apply keeps_ret.
Qed.

(** X18.  Registering a task under a key that was free and deleting it again
    gives back the tasks there were. *)
Theorem X18_register_then_delete_restores_the_tasks
    (params : TaskParams) (trigger : string) (when : option datetime)
    (w w1 w2 : World) :
  register_task params trigger when w = (inr tt, w1) →
  delete_task (name params) (folder params) w1 = (inr tt, w2) →
  (∀ f, tasks w !! (f, name params) = None) →
  tasks w2 = tasks w.
Proof.
  intros (f & w1s & td & Hs & Ha & Hw1)%register_task_ok
         (f2 & w2s & rt & Hs2 & Hl & ->)%delete_task_ok Hfree.
  assert (folders w1 = folders w1s) as Hf by (by subst w1).
  destruct (session_again _ _ _ _ _ _ _ Hs Hf Hs2) as (-> & _ & Ht).
  destruct (framed_session (folder params) w) as (_ & _ & Ht0 & _).
  rewrite Hs in Ht0. simpl in Ht0.
  simpl. rewrite Ht. subst w1. simpl. rewrite Ht0.
  by rewrite delete_insert_eq, delete_id.
Qed.

(** X18, witness: a job registered in the folder Jobs of a fresh service and
    deleted. *)
Lemma X18_witness :
  let w1 := (register_task (Sample.job "\Jobs") "once" None Sample.fresh).2 in
  let w2 := (delete_task "Job" "\Jobs" w1).2 in
  tasks w2 = tasks Sample.fresh.
Proof.
  intros w1 w2.
  apply (X18_register_then_delete_restores_the_tasks (Sample.job "\Jobs")
           "once" None Sample.fresh w1 w2).
  - apply (run_ok (register_task (Sample.job "\Jobs") "once" None Sample.fresh) tt).
    vm_compute. reflexivity.
  - apply (run_ok (delete_task "Job" "\Jobs" w1) tt). vm_compute. reflexivity.
  - intros f. apply lookup_empty.
Defined.

(** ** Paths as texts and as segments *)

Lemma append_nil (acc : string) : EmptyString +:+ acc = acc.
Proof. reflexivity. Qed.

Lemma append_cons a (s acc : string) : String a s +:+ acc = String a (s +:+ acc).
Proof. reflexivity. Qed.

Lemma append_empty s : s +:+ EmptyString = s.
Proof.
  induction s as [|a s IH]; [done|]. by rewrite append_cons, IH.
Qed.

Lemma split_append_free c seg acc :
  occurs c seg = false →
  PyStr.split c (seg +:+ acc) =
  match PyStr.split c acc with
  | field :: fields => (seg +:+ field) :: fields
  | [] => [seg]
  end.
Proof.
  induction seg as [|a seg IH].
  - intros _. rewrite append_nil.
    pose proof (split_nonnil c acc). by destruct (PyStr.split c acc).
  - intros Hocc. simpl in Hocc. apply orb_false_iff in Hocc as [Ha Hs].
    apply bool_decide_eq_false in Ha. rewrite append_cons. simpl.
    rewrite decide_False by done. rewrite IH by done.
    pose proof (split_nonnil c acc). by destruct (PyStr.split c acc).
Qed.

Lemma split_snoc c s :
  PyStr.split c (s +:+ String c EmptyString) = PyStr.split c s ++ [EmptyString].
Proof.
  induction s as [|a s IH].
  - rewrite append_nil. simpl. by rewrite decide_True.
  - rewrite append_cons. simpl.
    destruct (decide (a = c)) as [Ha|Ha]; [by rewrite IH|].
    rewrite IH. pose proof (split_nonnil c s). by destruct (PyStr.split c s).
Qed.

Lemma joined_segments l :
  Forall segment l →
  Svc.segments (foldr (λ seg acc, String PyStr.backslash (seg +:+ acc))
                      EmptyString l) = l.
Proof.
  unfold Svc.segments, PyStr.nonempty_fields.
  induction 1 as [|seg l [Hne Hfree] Hl IH]; simpl; [done|].
  rewrite filter_cons_False by naive_solver.
  rewrite split_append_free by done.
  destruct l as [|seg' l]; simpl in *.
  - rewrite append_empty. by rewrite filter_cons_True.
  - rewrite append_empty. rewrite filter_cons_False in IH by naive_solver.
    rewrite filter_cons_True by done. by rewrite IH.
Qed.

(** X19.  Joining segments with a backslash before each, the way the service
    writes the path of a task, and splitting the text the way [_get_folder]
    does gives the segments back. *)
Theorem X19_path_text_round_trip (f : fpath) (nm : string) :
  Forall segment (f ++ [nm]) →
  path_parts (Task.path_text f nm) = f ++ [nm].
Proof.
  intros Hall. rewrite <- segments_path_parts. by apply joined_segments.
Qed.

(** X19, witness: the task Job of the folder A\B. *)
Lemma X19_witness :
  Forall segment (["A"; "B"] ++ ["Job"]) ∧
  path_parts (Task.path_text ["A"; "B"] "Job") = ["A"; "B"] ++ ["Job"].
Proof.
  assert (Forall segment (["A"; "B"] ++ ["Job"])) as Hall.
  { repeat constructor; by vm_compute. }
  split; [exact Hall|].
  apply (X19_path_text_round_trip ["A"; "B"] "Job" Hall).
Defined.

(** X20.  The parts [_get_folder] walks over are the non-empty fields
    between backslashes: the [strip] changes nothing, a backslash more at
    the front or at the end changes nothing, and no part is empty or holds
    a backslash. *)
Theorem X20_path_parts_ignore_extra_backslashes (s : string) :
  path_parts s = PyStr.nonempty_fields (PyStr.split PyStr.backslash s) ∧
  path_parts (String PyStr.backslash s) = path_parts s ∧
  path_parts (s +:+ String PyStr.backslash EmptyString) = path_parts s ∧
  Forall segment (path_parts s).
Proof.
  split_and!.
  - symmetry. apply segments_path_parts.
  - rewrite <- !segments_path_parts. unfold Svc.segments, PyStr.nonempty_fields.
    simpl. by rewrite filter_cons_False by naive_solver.
  - rewrite <- !segments_path_parts. unfold Svc.segments, PyStr.nonempty_fields.
    rewrite split_snoc, filter_app. rewrite filter_cons_False by naive_solver.
    by rewrite filter_nil, app_nil_r.
  - apply path_parts_segments.
Qed.

(** X21.  When two resolutions of the same path in a row both succeed, the
    second returns the folder the first returned and creates nothing. *)
Theorem X21_resolution_repeats
    (s : string) (w : World) (f : fpath) (w1 : World) (f2 : fpath) (w2 : World) :
  _get_folder s w = (inr f, w1) →
  _get_folder s w1 = (inr f2, w2) →
  f2 = f ∧ folders w2 = folders w1 ∧ tasks w2 = tasks w.
Proof.
  intros H1 H2. destruct (get_folder_again s w f w1 f2 w2 H1 H2) as [-> Hf].
  destruct (framed_get_folder s w) as (_ & _ & Ht1 & _).
  destruct (framed_get_folder s w1) as (_ & _ & Ht2 & _).
  rewrite H1 in Ht1. rewrite H2 in Ht2. simpl in *. split_and!; congruence.
Qed.

(** X21, witness: the path A\B\C on a fresh service, twice. *)
Lemma X21_witness :
  let r1 := _get_folder "\A\B\C" Sample.fresh in
  let r2 := _get_folder "\A\B\C" r1.2 in
  r1.1 = inr ["A"; "B"; "C"] ∧ r2.1 = inr ["A"; "B"; "C"] ∧
  folders r2.2 = folders r1.2 ∧ tasks r2.2 = tasks Sample.fresh.
Proof.
  intros r1 r2. split; [vm_compute; reflexivity|].
  split; [vm_compute; reflexivity|].
  apply (X21_resolution_repeats "\A\B\C" Sample.fresh ["A"; "B"; "C"] r1.2
           ["A"; "B"; "C"] r2.2).
  - apply (run_is r1). vm_compute. reflexivity.
  - apply (run_is r2). vm_compute. reflexivity.
Defined.

(** ** Nested folders on a service without folders *)

Lemma prefix_snoc (f l : fpath) (q : string) :
  f `prefix_of` l ++ [q] ↔ f `prefix_of` l ∨ f = l ++ [q].
Proof.
  split.
  - intros [k Hk]. destruct k as [|x k _] using rev_ind.
    + right. by rewrite app_nil_r in Hk.
    + left. rewrite app_assoc in Hk. apply app_inj_tail in Hk as [-> _].
      by apply prefix_app_r.
  - intros [Hp | ->]; [by apply prefix_app_r | done].
Qed.

(** X22.  On a reachable service that holds no folder yet, a path whose
    first segment does not come back further down resolves to the folder it
    names, and the folders created are exactly the folders on the way, each
    under the one before. *)
Theorem X22_nested_path_on_a_fresh_service
    (s p : string) (rest : list string) (w : World) :
  online w = true → folders w = ∅ →
  path_parts s = p :: rest → p ∉ rest →
  ∃ w1,
    session s w = (inr (p :: rest), w1) ∧
    ∀ f, f ∈ folders w1 ↔ f ≠ [] ∧ f `prefix_of` p :: rest.
Proof.
  intros Ho Hf Hp Hn.
  destruct (session_online s w Ho) as (w1 & Hs & Hfs & _).
  exists w1. rewrite <- Hp. split; [done|].
  intros f. rewrite Hfs, resolve_elem, Hf, Hp.
  assert (exists_in ∅ (p :: rest) = false) as ->.
  { apply bool_decide_eq_false. intros [|Hin]; [done|].
    by apply not_elem_of_empty in Hin. }
  split; [|naive_solver]. intros [Hin|(_ & ? & ?)]; [|done].
  by apply not_elem_of_empty in Hin.
Qed.

(** X22, witness: the path A\B\C on a fresh service. *)
Lemma X22_witness :
  ∃ w1,
    session "\A\B\C" Sample.fresh = (inr ("A" :: ["B"; "C"]), w1) ∧
    ∀ f, f ∈ folders w1 ↔ f ≠ [] ∧ f `prefix_of` "A" :: ["B"; "C"].
Proof.
  apply (X22_nested_path_on_a_fresh_service "\A\B\C" "A" ["B"; "C"] Sample.fresh).
  - reflexivity.
  - reflexivity.
  - vm_compute. reflexivity.
  - rewrite !elem_of_cons, elem_of_nil. by intros [|[|]].
Defined.


(** ** Listing *)

(** X23.  [list_tasks] keeps nothing from one call to the next and changes
    no task: two successful listings of a folder in a row log the same
    lines. *)
Theorem X23_listing_twice_logs_the_same (fld : string) (w w1 w2 : World) :
  list_tasks fld w = (inr tt, w1) →
  list_tasks fld w1 = (inr tt, w2) →
  ∃ lines,
    logged w1 = logged w ++ lines ∧
    logged w2 = logged w1 ++ lines ∧
    tasks w2 = tasks w.
Proof.
  intros (f & w1s & Hs & Hw1)%list_tasks_ok (f2 & w2s & Hs2 & ->)%list_tasks_ok.
  assert (folders w1 = folders w1s) as Hf by (by subst w1).
  destruct (session_again _ _ _ _ _ _ _ Hs Hf Hs2) as (-> & _ & Ht).
  destruct (framed_session fld w) as (_ & _ & Ht0 & Hl0 & _).
  destruct (framed_session fld w1) as (_ & _ & _ & Hl1 & _).
  rewrite Hs in Ht0, Hl0. rewrite Hs2 in Hl1. simpl in Ht0, Hl0, Hl1.
  assert (tasks w2s = tasks w1s) as Hsame by (rewrite Ht; by subst w1).
  exists (task_line <$> Task.tasks_in w1s f). split_and!.
  - subst w1. simpl. by rewrite Hl0.
  - simpl. rewrite Hl1. unfold Task.tasks_in. by rewrite Hsame.
  - simpl. by rewrite Hsame.
Qed.

(** X23, witness: two listings of the folder Jobs after a registration. *)
Lemma X23_witness :
  let w := (register_task (Sample.job "\Jobs") "logon" None Sample.fresh).2 in
  let w1 := (list_tasks "\Jobs" w).2 in
  let w2 := (list_tasks "\Jobs" w1).2 in
  ∃ lines,
    logged w1 = logged w ++ lines ∧
    logged w2 = logged w1 ++ lines ∧
    tasks w2 = tasks w.
Proof.
  intros w w1 w2. apply (X23_listing_twice_logs_the_same "\Jobs" w w1 w2).
  - apply (run_ok (list_tasks "\Jobs" w) tt). vm_compute. reflexivity.
  - apply (run_ok (list_tasks "\Jobs" w1) tt). vm_compute. reflexivity.
Defined.

(** X24.  The [list] command without [--folder] lists the root folder: on a
    reachable service it returns 0 after three calls ([Connect], one
    [GetFolder] of the root, [GetTasks]), creates no folder and logs the
    tasks the service holds at the root. *)
Theorem X24_list_command_defaults_to_the_root
    (Path_of : string → PyPath) (strptime : string → option datetime) (w : World) :
  online w = true →
  ∃ w',
    main Path_of strptime (cl_list None) w = (inr 0, w') ∧
    calls w' = calls w ++ [CConnect; CSvcGetFolder root_text; CGetTasks [] 0] ∧
    folders w' = folders w ∧ tasks w' = tasks w ∧
    logged w' = logged w ++ (task_line <$> Task.tasks_in w []).
Proof.
  intros Ho. unfold main. unfold bind at 1. simpl.
  unfold bind at 1. rewrite list_tasks_eq.
  erewrite bind_ok by (by apply session_existing).
  unfold bind, Task.GetTasks, record_call, get_world, ret. simpl.
  rewrite (for_each_logging _
             (add_call (CGetTasks [] 0)
                (add_call (CSvcGetFolder root_text) (add_call CConnect w)))).
  eexists. split; [reflexivity|]. simpl. split_and!; try done.
  by rewrite <- !app_assoc.
Qed.

(** X24, witness: the command on a fresh service. *)
Lemma X24_witness :
  ∃ w',
    main Sample.Path_of Sample.strptime (cl_list None) Sample.fresh = (inr 0, w') ∧
    calls w' = calls Sample.fresh ++
               [CConnect; CSvcGetFolder root_text; CGetTasks [] 0] ∧
    folders w' = folders Sample.fresh ∧ tasks w' = tasks Sample.fresh ∧
    logged w' = logged Sample.fresh ++
                (task_line <$> Task.tasks_in Sample.fresh []).
Proof.
  apply (X24_list_command_defaults_to_the_root Sample.Path_of Sample.strptime
           Sample.fresh).
  reflexivity.
Defined.
